(** * account.go of btcwallet: the per-account wallet state

    A shallow embedding of [src/account.go] (package main of btcwallet) and
    the properties of it that the specification states.

    Conventions of the embedding.
    - Go's fixed-width integers are [Z] with the wrap-around written out
      ([GoInt]): [int32] for block heights, [uint64] for amounts, and [int]
      taken as 64 bits wide.
    - [float64] is the binary64 format of [SpecFloat] (53 bits of mantissa):
      the conversions and the division are the correctly rounded ones.
    - The account, the package-level address registry, and everything the
      methods reach outside the account (current-block provider, disk, node
      peer, log) make up one [World]; a method is a function on worlds.
    - The mutexes are left out: every method is modelled as running alone.
    - A run-time panic (an index out of range) is an [outcome] of its own. *)

From Stdlib Require Import ZArith List Bool Lia.
From Stdlib Require Import Floats.SpecFloat.
From Stdlib Require Strings.Byte.
From Stdlib Require Import Ascii.
From stdpp Require Import base option list gmap strings.

Local Open Scope Z_scope.

(** ** Machine integers *)

Module GoInt.

(** Two's-complement reading of the low [bits] bits of [x]. *)
Definition wrap_signed (bits x : Z) : Z :=
  (x + 2 ^ (bits - 1)) mod 2 ^ bits - 2 ^ (bits - 1).

Definition in_signed (bits x : Z) : Prop :=
  - 2 ^ (bits - 1) <= x < 2 ^ (bits - 1).

(** [int32]: block heights. *)
Definition int32_sub (a b : Z) : Z := wrap_signed 32 (a - b).
Definition int32_add (a b : Z) : Z := wrap_signed 32 (a + b).

(** [int]: 64 bits wide. *)
Definition int_bits : Z := 64.
Definition int_sub (a b : Z) : Z := wrap_signed int_bits (a - b).

(** [uint64]: amounts in satoshi. *)
Definition uint64_add (a b : Z) : Z := (a + b) mod 2 ^ 64.

End GoInt.

(** ** float64 *)

Definition float64 : Type := spec_float.

(** [float64(z)] for an integer [z]: rounded to nearest, ties to even. *)
Definition float64_of_Z (z : Z) : float64 := binary_normalize 53 1024 z 0 false.

(** [x / y] on float64. *)
Definition float64_div (x y : float64) : float64 := SFdiv 53 1024 x y.

(** The literal [0.]. *)
Definition float64_zero : float64 := S754_zero false.

(** ** Constants of btcutil *)

(** [btcutil.BlockHeightUnknown]. *)
Definition BlockHeightUnknown : Z := -1.

(** [btcutil.SatoshiPerBitcoin]. *)
Definition SatoshiPerBitcoin : Z := 100000000.

(** ** Data *)

Definition bytes : Type := list Byte.byte.

#[global] Instance byte_eq_dec : EqDecision Byte.byte := Byte.byte_eq_dec.

(** [bytes.Equal]: same length and same bytes. *)
Definition bytes_Equal (a b : bytes) : bool := bool_decide (a = b).

(** [btcwire.ShaHash]. *)
Definition ShaHash : Type := bytes.

(** [btcwire.BitcoinNet]: the uint32 magic of a network. *)
Definition BitcoinNet : Type := Z.
Definition MainNet : BitcoinNet := 0xd9b4bef9.
Definition TestNet3 : BitcoinNet := 0x0709110b.

(** [wallet.BlockStamp]. *)
Module BlockStamp.
Record t : Type := mk { Height : Z; Hash : ShaHash }.
End BlockStamp.

(** [tx.Utxo], with the fields [account.go] reads. *)
Module Utxo.
Record t : Type := mk {
  OutHash : ShaHash;
  OutIndex : Z;
  AddrHash : bytes;
  Amt : Z;
  Height : Z
}.
End Utxo.

(** Modelled from the spec: [tx.RecvTx] (declared in package tx, outside
    [account.go]).  [ReceiverHash] is the field [account.go] reads; the others
    are those of the specification's ReceiveRecord. *)
Module RecvTx.
Record t : Type := mk {
  ReceiverHash : bytes;
  Amount : Z;
  Height : Z;
  TxHash : ShaHash
}.
End RecvTx.

(** Modelled from the spec: [tx.SendTx] (declared in package tx, outside
    [account.go]), as the specification's SendRecord: a list of outputs (the
    receiving public-key hash and the amount of each), the block height and
    the transaction hash. *)
Module SendTx.
Record t : Type := mk {
  Outputs : list (bytes * Z);
  Height : Z;
  TxHash : ShaHash
}.
End SendTx.

(** An entry of [tx.TxStore]: the two record kinds the type switches and
    type assertions of [account.go] tell apart. *)
Inductive TxRecord : Type :=
| IsSendTx (e : SendTx.t)
| IsRecvTx (e : RecvTx.t).

(** [btcutil.Address]: the encoded form, the script address (the public-key
    hash of a pay-to-pubkey-hash address), and whether its dynamic type is
    [*btcutil.AddressPubKeyHash]. *)
Module Address.
Record t : Type := mk {
  EncodeAddress : string;
  ScriptAddress : bytes;
  IsPubKeyHash : bool
}.
End Address.

(** Go errors. *)
Inductive error : Type :=
| ErrNotFound
| ErrWrongNetwork
| ErrImportFailed (cause : error)
| ErrCollaborator (msg : string).

(** A Go result pair [(value, error)] of which exactly one side is set. *)
Inductive result (A : Type) : Type :=
| Ok (a : A)
| Err (e : error).
Arguments Ok {A} a.
Arguments Err {A} e.

(** What a call ends in: it returns, or it panics. *)
Inductive outcome (A : Type) : Type :=
| Returns (a : A)
| Panics.
Arguments Returns {A} a.
Arguments Panics {A}.

(** ** Detail rows of the history queries *)

Inductive Category : Type := CatSend | CatReceive.

(** Modelled from the spec: the row type of the history queries (a
    [map[string]interface{}] built by package tx, which is not part of
    [account.go]).  A row carries the account name, the direction, the
    amount, the address involved, the confirming block height (if any) and
    the owning transaction's hash; the best height and the network the row
    was built against are kept as given. *)
Module TxInfoRow.
Record t : Type := mk {
  Account : string;
  Direction : Category;
  Amount : Z;
  AddressHash : bytes;
  BlockHeight : option Z;
  TxHash : ShaHash;
  CurHeight : Z;
  Net : BitcoinNet
}.
End TxInfoRow.

Definition confirming_height (height : Z) : option Z :=
  if height =? -1 then None else Some height.

(** Modelled from the spec: [TxInfo] of [tx.RecvTx], one row per receive
    record. *)
Definition RecvTx_TxInfo (e : RecvTx.t) (account : string) (curheight : Z)
  (net : BitcoinNet) : TxInfoRow.t :=
  TxInfoRow.mk account CatReceive (RecvTx.Amount e) (RecvTx.ReceiverHash e)
    (confirming_height (RecvTx.Height e)) (RecvTx.TxHash e) curheight net.

(** Modelled from the spec: [TxInfo] of [tx.SendTx], one row per output of a
    send record. *)
Definition SendTx_TxInfo (e : SendTx.t) (account : string) (curheight : Z)
  (net : BitcoinNet) : list TxInfoRow.t :=
  map (fun out : bytes * Z =>
         TxInfoRow.mk account CatSend (snd out) (fst out)
           (confirming_height (SendTx.Height e)) (SendTx.TxHash e) curheight net)
      (SendTx.Outputs e).

(** ** The account and its surroundings *)

(** [Account].  [W] is the state of the embedded [*wallet.Wallet]. *)
Record Account (W : Type) : Type := mkAccount {
  Wallet : W;
  name : string;
  dirty : bool;
  fullRescan : bool;
  UtxoStore_dirty : bool;
  UtxoStore_s : list Utxo.t;
  TxStore_dirty : bool;
  TxStore_s : list TxRecord
}.
Arguments mkAccount {W} _ _ _ _ _ _ _ _.
Arguments Wallet {W} _.
Arguments name {W} _.
Arguments dirty {W} _.
Arguments fullRescan {W} _.
Arguments UtxoStore_dirty {W} _.
Arguments UtxoStore_s {W} _.
Arguments TxStore_dirty {W} _.
Arguments TxStore_s {W} _.

(** The calls into the embedded wallet that may change it. *)
Inductive WalletCall : Type :=
| CallLock
| CallUnlock (passphrase : bytes)
| CallNextChainedAddress (bs : BlockStamp.t)
| CallImportPrivateKey (privkey : bytes) (compressed : bool) (bs : BlockStamp.t).

(** What a method does that is seen outside the account. *)
Inductive event : Type :=
| EvWallet (c : WalletCall)
| EvNotifyWalletLockStateChange (account : string) (locked : bool)
| EvNotifyNewTXs (addrs : list string)
| EvRescan (beginBlock : Z) (addrs : list string)
| EvLogError (msg : string) (err : option error)
| EvLogInfo (msg : string) (arg : string)
| EvLogDebug (msg : string) (arg : string).

(** The account [a], the package-level [addressAccountMap], and the
    collaborators' side: what [GetCurBlock()] answers, what the coming disk
    writes answer (in order; a write past the end of the list succeeds), what
    [NotifyNewTXs] answers, and the events so far (oldest first). *)
Record World (W : Type) : Type := mkWorld {
  acct : Account W;
  addressAccountMap : gmap string string;
  curBlock : BlockStamp.t * option error;
  disk : list (option error);
  nodePeer : option error;
  trace : list event
}.
Arguments mkWorld {W} _ _ _ _ _ _.
Arguments acct {W} _.
Arguments addressAccountMap {W} _.
Arguments curBlock {W} _.
Arguments disk {W} _.
Arguments nodePeer {W} _.
Arguments trace {W} _.

(** What [account.go] calls and does not define: the methods of the embedded
    [*wallet.Wallet], [btcutil.DecodePrivateKey], and the two [Rollback]
    methods of package tx.  A wallet method takes the wallet's state and gives
    the new state with its result. *)
Class Collaborators (W : Type) : Type := {
  Wallet_Name : W -> string;
  Wallet_Net : W -> BitcoinNet;
  Wallet_Lock : W -> W * option error;
  Wallet_Unlock : W -> bytes -> W * option error;
  Wallet_LastChainedAddress : W -> Address.t;
  Wallet_NextChainedAddress : W -> BlockStamp.t -> W * result Address.t;
  Wallet_ImportPrivateKey :
    W -> bytes -> bool -> BlockStamp.t -> W * result string;
  DecodePrivateKey : string -> result (bytes * BitcoinNet * bool);
  UtxoStore_Rollback : list Utxo.t -> Z -> ShaHash -> list Utxo.t * bool;
  TxStore_Rollback : list TxRecord -> Z -> ShaHash -> list TxRecord * bool
}.

(** ** Methods as functions on worlds *)

Definition M (W A : Type) : Type := World W -> World W * A.

Definition ret {W A : Type} (a : A) : M W A := fun w => (w, a).

Definition bind {W A B : Type} (m : M W A) (k : A -> M W B) : M W B :=
  fun w => let '(w', a) := m w in k a w'.

Declare Scope go_scope.
Delimit Scope go_scope with go.
Notation "'let*' x ':=' m 'in' k" := (bind m (fun x => k))
  (at level 10, x name, m at level 100, k at level 200, only parsing) : go_scope.
Notation "'let*' ' p ':=' m 'in' k" := (bind m (fun p => k))
  (at level 10, p strict pattern, m at level 100, k at level 200, only parsing) : go_scope.

Section Setters.
Context {W : Type}.

Definition set_Wallet (wl : W) (a : Account W) : Account W :=
  mkAccount wl (name a) (dirty a) (fullRescan a)
    (UtxoStore_dirty a) (UtxoStore_s a) (TxStore_dirty a) (TxStore_s a).

Definition set_dirty (b : bool) (a : Account W) : Account W :=
  mkAccount (Wallet a) (name a) b (fullRescan a)
    (UtxoStore_dirty a) (UtxoStore_s a) (TxStore_dirty a) (TxStore_s a).

Definition set_UtxoStore (d : bool) (s : list Utxo.t) (a : Account W) : Account W :=
  mkAccount (Wallet a) (name a) (dirty a) (fullRescan a)
    d s (TxStore_dirty a) (TxStore_s a).

Definition set_TxStore (d : bool) (s : list TxRecord) (a : Account W) : Account W :=
  mkAccount (Wallet a) (name a) (dirty a) (fullRescan a)
    (UtxoStore_dirty a) (UtxoStore_s a) d s.

Definition set_acct (a : Account W) (w : World W) : World W :=
  mkWorld a (addressAccountMap w) (curBlock w) (disk w) (nodePeer w) (trace w).

Definition set_addressAccountMap (m : gmap string string) (w : World W) : World W :=
  mkWorld (acct w) m (curBlock w) (disk w) (nodePeer w) (trace w).

Definition set_disk (d : list (option error)) (w : World W) : World W :=
  mkWorld (acct w) (addressAccountMap w) (curBlock w) d (nodePeer w) (trace w).

Definition set_trace (t : list event) (w : World W) : World W :=
  mkWorld (acct w) (addressAccountMap w) (curBlock w) (disk w) (nodePeer w) t.

End Setters.

Section Methods.
Context {W : Type} `{!Collaborators W}.
Local Open Scope go_scope.

(** *** Steps shared by the methods *)

Definition emit (e : event) : M W unit :=
  fun w => (set_trace (trace w ++ [e]) w, tt).

Definition read {A : Type} (f : World W -> A) : M W A :=
  fun w => (w, f w).

Definition update (f : Account W -> Account W) : M W unit :=
  fun w => (set_acct (f (acct w)) w, tt).

(** A call of a method of the embedded wallet: the call is recorded and the
    wallet takes its new state. *)
Definition wallet_call {A : Type} (c : WalletCall) (op : W -> W * A) : M W A :=
  fun w =>
    let '(wl, r) := op (Wallet (acct w)) in
    (set_trace (trace w ++ [EvWallet c]) (set_acct (set_Wallet wl (acct w)) w), r).

(** [a.Name()] and [a.Net()]: methods of the embedded wallet ([Account] has
    none of its own by these names). *)
Definition Name (w : World W) : string := Wallet_Name (Wallet (acct w)).
Definition Net (w : World W) : BitcoinNet := Wallet_Net (Wallet (acct w)).

(** [GetCurBlock()]. *)
Definition GetCurBlock : M W (BlockStamp.t * option error) := read curBlock.

(** [NotifyNewTXs(CurrentRPCConn(), addrs)]. *)
Definition NotifyNewTXs (addrs : list string) : M W (option error) :=
  let* _ := emit (EvNotifyNewTXs addrs) in read nodePeer.

(** [Rescan(CurrentRPCConn(), beginBlock, addrs)]: the request is sent; the
    notifications it leads to reach the account through handlers that are
    not part of [account.go]. *)
Definition Rescan (beginBlock : Z) (addrs : list string) : M W unit :=
  emit (EvRescan beginBlock addrs).

(** Modelled from the spec: [writeDirtyToDisk] (defined outside
    [account.go]).  A flush that succeeds clears the dirty flags; one that
    fails leaves the account as it is and returns the error. *)
Definition writeDirtyToDisk : M W (option error) :=
  fun w =>
    match disk w with
    | Some e :: rest => (set_disk rest w, Some e)
    | None :: rest =>
        (set_disk rest
           (set_acct (set_dirty false
                        (set_UtxoStore false (UtxoStore_s (acct w))
                           (set_TxStore false (TxStore_s (acct w)) (acct w)))) w),
         None)
    | [] =>
        (set_acct (set_dirty false
                     (set_UtxoStore false (UtxoStore_s (acct w))
                        (set_TxStore false (TxStore_s (acct w)) (acct w)))) w,
         None)
    end.

(** *** The address registry *)

(** [MarkAddressForAccount]. *)
Definition MarkAddressForAccount (address account : string) : M W unit :=
  fun w => (set_addressAccountMap (<[address := account]> (addressAccountMap w)) w, tt).

(** [LookupAccountByAddress]. *)
Definition LookupAccountByAddress (w : World W) (address : string) : result string :=
  match addressAccountMap w !! address with
  | Some account => Ok account
  | None => Err ErrNotFound
  end.

(** *** Lock and Unlock *)

(** [Account.Lock]. *)
Definition Lock : M W (option error) :=
  let* err := wallet_call CallLock Wallet_Lock in
  let* _ :=
    match err with
    | None => let* n := read Name in emit (EvNotifyWalletLockStateChange n true)
    | Some _ => ret tt
    end in
  ret err.

(** [Account.Unlock]. *)
Definition Unlock (passphrase : bytes) (timeout : Z) : M W (option error) :=
  let* err := wallet_call (CallUnlock passphrase) (fun wl => Wallet_Unlock wl passphrase) in
  let* _ :=
    match err with
    | None => let* n := read Name in emit (EvNotifyWalletLockStateChange n false)
    | Some _ => ret tt
    end in
  wallet_call (CallUnlock passphrase) (fun wl => Wallet_Unlock wl passphrase).

(** *** Rollback *)

(** [a.UtxoStore.dirty = a.UtxoStore.dirty || a.UtxoStore.s.Rollback(height, hash)]:
    Go's [||] evaluates its right operand only when the left one is false. *)
Definition rollback_UtxoStore (height : Z) (hash : ShaHash) (a : Account W) : Account W :=
  if UtxoStore_dirty a then a
  else
    let '(s, modified) := UtxoStore_Rollback (UtxoStore_s a) height hash in
    set_UtxoStore modified s a.

Definition rollback_TxStore (height : Z) (hash : ShaHash) (a : Account W) : Account W :=
  if TxStore_dirty a then a
  else
    let '(s, modified) := TxStore_Rollback (TxStore_s a) height hash in
    set_TxStore modified s a.

(** [Account.Rollback]. *)
Definition Rollback (height : Z) (hash : ShaHash) : M W unit :=
  let* _ := update (rollback_UtxoStore height hash) in
  let* _ := update (rollback_TxStore height hash) in
  let* err := writeDirtyToDisk in
  match err with
  | Some e => emit (EvLogError "cannot sync dirty wallet" (Some e))
  | None => ret tt
  end.

(** *** AddressUsed *)

(** [Account.AddressUsed]. *)
Definition AddressUsed (w : World W) (addr : Address.t) : bool :=
  let pkHash := Address.ScriptAddress addr in
  existsb (fun e =>
             match e with
             | IsRecvTx rtx => bytes_Equal (RecvTx.ReceiverHash rtx) pkHash
             | IsSendTx _ => false
             end)
          (TxStore_s (acct w)).

(** *** Balances *)

(** The test of the loop body of both balance methods:
    [confirms == 0 || (u.Height != -1 && int(bs.Height-u.Height+1) >= confirms)]. *)
Definition counts_towards (confirms : Z) (bs : BlockStamp.t) (u : Utxo.t) : bool :=
  (confirms =? 0)
  || (negb (Utxo.Height u =? -1)
      && (confirms <=? GoInt.int32_add (GoInt.int32_sub (BlockStamp.Height bs) (Utxo.Height u)) 1)).

(** [float64(bal) / float64(btcutil.SatoshiPerBitcoin)]. *)
Definition bitcoin_of_satoshi (bal : Z) : float64 :=
  float64_div (float64_of_Z bal) (float64_of_Z SatoshiPerBitcoin).

(** [Account.CalculateBalance]. *)
Definition CalculateBalance (w : World W) (confirms : Z) : float64 :=
  let '(bs, err) := curBlock w in
  if (BlockStamp.Height bs =? BlockHeightUnknown) || bool_decide (is_Some err)
  then float64_zero
  else
    let bal :=
      fold_left (fun bal u =>
                   if counts_towards confirms bs u
                   then GoInt.uint64_add bal (Utxo.Amt u) else bal)
                (UtxoStore_s (acct w)) 0 in
    bitcoin_of_satoshi bal.

(** [Account.CalculateAddressBalance]; [addr] is a [*btcutil.AddressPubKeyHash]. *)
Definition CalculateAddressBalance (w : World W) (addr : Address.t) (confirms : Z) : float64 :=
  let '(bs, err) := curBlock w in
  if (BlockStamp.Height bs =? BlockHeightUnknown) || bool_decide (is_Some err)
  then float64_zero
  else
    let bal :=
      fold_left (fun bal u =>
                   if counts_towards confirms bs u
                   then if bytes_Equal (Address.ScriptAddress addr) (Utxo.AddrHash u)
                        then GoInt.uint64_add bal (Utxo.Amt u) else bal
                   else bal)
                (UtxoStore_s (acct w)) 0 in
    bitcoin_of_satoshi bal.

(** *** Issuing and importing addresses *)

(** [Account.ReqNewTxsForAddress]. *)
Definition ReqNewTxsForAddress (addr : Address.t) : M W unit :=
  if Address.IsPubKeyHash addr then
    let* _ := emit (EvLogDebug "Requesting notifications of TXs sending to address"
                      (Address.EncodeAddress addr)) in
    let* err := NotifyNewTXs [Address.EncodeAddress addr] in
    match err with
    | Some _ => emit (EvLogError "Unable to request transaction updates for address." None)
    | None => ret tt
    end
  else ret tt.

(** [Account.NewAddress]. *)
Definition NewAddress : M W (result Address.t) :=
  let* '(bs, err) := GetCurBlock in
  match err with
  | Some e => ret (Err e)
  | None =>
      let* r := wallet_call (CallNextChainedAddress bs)
                  (fun wl => Wallet_NextChainedAddress wl bs) in
      match r with
      | Err e => ret (Err e)
      | Ok addr =>
          let* _ := update (set_dirty true) in
          let* err := writeDirtyToDisk in
          let* _ :=
            match err with
            | Some e => emit (EvLogError "cannot sync dirty wallet" (Some e))
            | None => ret tt
            end in
          let* n := read Name in
          let* _ := MarkAddressForAccount (Address.EncodeAddress addr) n in
          let* _ := ReqNewTxsForAddress addr in
          ret (Ok addr)
      end
  end.

(** [Account.CurrentAddress]. *)
Definition CurrentAddress : M W (result Address.t) :=
  let* addr := read (fun w => Wallet_LastChainedAddress (Wallet (acct w))) in
  let* used := read (fun w => AddressUsed w addr) in
  if used then NewAddress else ret (Ok addr).

(** [Account.ImportWIFPrivateKey]. *)
Definition ImportWIFPrivateKey (wif : string) (bs : BlockStamp.t) : M W (result string) :=
  match DecodePrivateKey wif with
  | Err e => ret (Err e)
  | Ok (privkey, net, compressed) =>
      let* anet := read Net in
      if negb (net =? anet) then ret (Err ErrWrongNetwork)
      else
        let* r := wallet_call (CallImportPrivateKey privkey compressed bs)
                    (fun wl => Wallet_ImportPrivateKey wl privkey compressed bs) in
        match r with
        | Err e => ret (Err e)
        | Ok addr =>
            let* _ := update (set_dirty true) in
            let* err := writeDirtyToDisk in
            match err with
            | Some e =>
                let* _ := emit (EvLogError "cannot write dirty wallet" (Some e)) in
                ret (Err (ErrImportFailed e))
            | None =>
                let* n := read Name in
                let* _ := MarkAddressForAccount addr n in
                let* _ := emit (EvLogInfo "Imported payment address" addr) in
                ret (Ok addr)
            end
        end
  end.

(** [&wallet.BlockStamp{}]: height 0 and the all-zero hash. *)
Definition zero_BlockStamp : BlockStamp.t :=
  BlockStamp.mk 0 (repeat Byte.x00 32).

(** [Account.ImportPrivKey]. *)
Definition ImportPrivKey (wif : string) (rescan : bool) : M W (option error) :=
  let bs := zero_BlockStamp in
  let* r := ImportWIFPrivateKey wif bs in
  match r with
  | Err e => ret (Some e)
  | Ok addr =>
      let* _ :=
        if rescan then
          let* _ := Rescan (BlockStamp.Height bs) [addr] in
          let* _ := writeDirtyToDisk in
          ret tt
        else ret tt in
      ret None
  end.

(** *** History queries *)

(** The rows one record of the store adds to the reply: those of
    [e.TxInfo(a.name, bs.Height, a.Net())], all of them for a send record
    ([append(txInfoList, infos...)]) and the single one of a receive record. *)
Definition TxInfo_of (account : string) (curheight : Z) (net : BitcoinNet)
  (e : TxRecord) : list TxInfoRow.t :=
  match e with
  | IsSendTx e => SendTx_TxInfo e account curheight net
  | IsRecvTx e => [RecvTx_TxInfo e account curheight net]
  end.

(** A loop [for i := len(s) - 1; continue(i); i-- { body(s[i]) }].  The
    counter [k] is [i + 1]: [i] starts at [len(s) - 1] and goes down by one,
    so it never falls below [-1], where indexing [s] panics. *)
Fixpoint downward_loop {A : Type} (s : list TxRecord) (continue : Z -> bool)
  (body : nat -> TxRecord -> A -> A) (k : nat) (acc : A) : outcome A :=
  if continue (Z.of_nat k - 1) then
    match k with
    | O => Panics
    | S i =>
        match s !! i with
        | Some e => downward_loop s continue body i (body i e acc)
        | None => Panics
        end
    end
  else Returns acc.

(** The loop condition of [ListTransactions]: [i >= from && i >= lastLookupIdx]
    with [lastLookupIdx := len(a.TxStore.s) - count]. *)
Definition ListTransactions_continue (n from count : Z) (i : Z) : bool :=
  (from <=? i) && (GoInt.int_sub n count <=? i).

(** [Account.ListTransactions]. *)
Definition ListTransactions (w : World W) (from count : Z)
  : outcome (result (list TxInfoRow.t)) :=
  let '(bs, err) := curBlock w in
  match err with
  | Some e => Returns (Err e)
  | None =>
      let s := TxStore_s (acct w) in
      match downward_loop s
              (ListTransactions_continue (Z.of_nat (length s)) from count)
              (fun _ e txInfoList =>
                 txInfoList ++ TxInfo_of (name (acct w)) (BlockStamp.Height bs) (Net w) e)
              (length s) [] with
      | Returns txInfoList => Returns (Ok txInfoList)
      | Panics => Panics
      end
  end.

(** The indices at which a call of [ListTransactions] indexes the store, in
    the order of the visits: the same loop, with a body that notes [i]. *)
Definition ListTransactions_visits (s : list TxRecord) (from count : Z)
  : outcome (list Z) :=
  downward_loop s (ListTransactions_continue (Z.of_nat (length s)) from count)
    (fun i _ visited => visited ++ [Z.of_nat i]) (length s) [].

(** [Account.ListAddressTransactions]; the keys of [pkHashes] are the
    public-key hashes as strings. *)
Definition ListAddressTransactions (w : World W) (pkHashes : gset string)
  : result (list TxInfoRow.t) :=
  let '(bs, err) := curBlock w in
  match err with
  | Some e => Err e
  | None =>
      Ok (fold_left
            (fun txInfoList e =>
               match e with
               | IsRecvTx rtx =>
                   if bool_decide (String.string_of_list_byte (RecvTx.ReceiverHash rtx) ∈ pkHashes)
                   then txInfoList ++ [RecvTx_TxInfo rtx (name (acct w)) (BlockStamp.Height bs) (Net w)]
                   else txInfoList
               | IsSendTx _ => txInfoList
               end)
            (TxStore_s (acct w)) [])
  end.

(** [Account.ListAllTransactions]: the condition of its loop is [i >= 0]. *)
Definition ListAllTransactions (w : World W) : outcome (result (list TxInfoRow.t)) :=
  let '(bs, err) := curBlock w in
  match err with
  | Some e => Returns (Err e)
  | None =>
      let s := TxStore_s (acct w) in
      match downward_loop s (fun i => 0 <=? i)
              (fun _ e txInfoList =>
                 txInfoList ++ TxInfo_of (name (acct w)) (BlockStamp.Height bs) (Net w) e)
              (length s) [] with
      | Returns txInfoList => Returns (Ok txInfoList)
      | Panics => Panics
      end
  end.

End Methods.

(** ** The specification's readings, for comparison with the code *)

(** The confirmation filter in the specification's words, over the integers:
    with [confirmations == 0] every entry passes; otherwise an entry passes
    when [height != -1] and [H - height + 1 >= confirmations]. *)
Definition passes_filter (H confirmations : Z) (u : Utxo.t) : bool :=
  if confirmations =? 0 then true
  else negb (Utxo.Height u =? -1) && (confirmations <=? H - Utxo.Height u + 1).

(** The sum of the amounts of the entries that pass the filter. *)
Definition filtered_sum (H confirmations : Z) (s : list Utxo.t) : Z :=
  foldr Z.add 0 (Utxo.Amt <$> filter (fun u => passes_filter H confirmations u = true) s).

(** The number of confirmations of an entry at [height] under the best
    height [H] fits in int32, unless the entry is unconfirmed (the code does
    not compute it then). *)
Definition confirmations_fit (H : Z) (u : Utxo.t) : Prop :=
  Utxo.Height u <> -1 -> GoInt.in_signed 32 (H - Utxo.Height u + 1).

(** [ListRecent(from, count)] in the specification's words: of the records
    taken most recent first, skip [from] and take [count]. *)
Definition ListRecent_records (s : list TxRecord) (from count : Z) : list TxRecord :=
  take (Z.to_nat count) (drop (Z.to_nat from) (rev s)).

(** The rows of one record, in the world [w]. *)
Definition rows_in {W : Type} `{!Collaborators W} (w : World W)
  : TxRecord -> list TxInfoRow.t :=
  TxInfo_of (name (acct w)) (BlockStamp.Height (fst (curBlock w))) (Net w).

(** The calls of [Wallet.Unlock] among the events. *)
Definition is_unlock_call (ev : event) : bool :=
  match ev with
  | EvWallet (CallUnlock _) => true
  | _ => false
  end.

Definition unlock_calls (t : list event) : nat :=
  length (List.filter is_unlock_call t).

(** ** A concrete wallet and concrete collaborators

    Used to run the methods on concrete worlds. *)

Module Sample.

(** Modelled from the spec: the key-derivation wallet of the external
    interfaces ([Lock], [Unlock], [LastChainedAddress], [NextChainedAddress],
    [ImportPrivateKey], [Net]).  It holds its name and network, its
    passphrase and lock state, the addresses issued so far (oldest first), the
    addresses it will issue next, and the imported keys. *)
Record wallet : Type := mk {
  wname : string;
  wnet : BitcoinNet;
  passphrase : bytes;
  locked : bool;
  issued : list Address.t;
  upcoming : list Address.t;
  imported : list (bytes * bool)
}.

Definition no_address : Address.t := Address.mk "" [] true.

Definition lock (wl : wallet) : wallet * option error :=
  if locked wl then (wl, Some (ErrCollaborator "wallet already locked"))
  else (mk (wname wl) (wnet wl) (passphrase wl) true (issued wl) (upcoming wl) (imported wl), None).

Definition unlock (wl : wallet) (pass : bytes) : wallet * option error :=
  if bytes_Equal pass (passphrase wl)
  then (mk (wname wl) (wnet wl) (passphrase wl) false (issued wl) (upcoming wl) (imported wl), None)
  else (wl, Some (ErrCollaborator "wrong passphrase")).

Definition lastChainedAddress (wl : wallet) : Address.t :=
  List.last (issued wl) no_address.

Definition nextChainedAddress (wl : wallet) (bs : BlockStamp.t) : wallet * result Address.t :=
  match upcoming wl with
  | addr :: rest =>
      (mk (wname wl) (wnet wl) (passphrase wl) (locked wl) (issued wl ++ [addr]) rest (imported wl),
       Ok addr)
  | [] => (wl, Err (ErrCollaborator "keypool exhausted"))
  end.

Definition importPrivateKey (wl : wallet) (privkey : bytes) (compressed : bool)
  (bs : BlockStamp.t) : wallet * result string :=
  if locked wl then (wl, Err (ErrCollaborator "wallet is locked"))
  else
    (mk (wname wl) (wnet wl) (passphrase wl) (locked wl) (issued wl) (upcoming wl)
       (imported wl ++ [(privkey, compressed)]),
     Ok (String.append "addr-of-" (String.string_of_list_byte privkey))).

(** A stand-in for [btcutil.DecodePrivateKey] that keeps the leading
    character of the wallet import format: 5, K and L start a main-network
    key, 9 and c a test-network key; K, L and c mark a compressed key.  The
    rest of the string stands for the key. *)
Definition decodePrivateKey (wif : string) : result (bytes * BitcoinNet * bool) :=
  match wif with
  | String c rest =>
      let key := String.list_byte_of_string rest in
      if Ascii.eqb c "5"%char then Ok (key, MainNet, false)
      else if Ascii.eqb c "K"%char || Ascii.eqb c "L"%char then Ok (key, MainNet, true)
      else if Ascii.eqb c "9"%char then Ok (key, TestNet3, false)
      else if Ascii.eqb c "c"%char then Ok (key, TestNet3, true)
      else Err (ErrCollaborator "malformed private key")
  | EmptyString => Err (ErrCollaborator "malformed private key")
  end.

(** Modelled from the spec: the ledgers' own [Rollback] (package tx), which
    drops the entries at or above the rollback height and tells whether it
    dropped any. *)
Definition utxoRollback (s : list Utxo.t) (height : Z) (hash : ShaHash)
  : list Utxo.t * bool :=
  let kept := filter (fun u => Utxo.Height u < height) s in
  (kept, negb (length kept =? length s)%nat).

Definition txHeight (e : TxRecord) : Z :=
  match e with
  | IsSendTx e => SendTx.Height e
  | IsRecvTx e => RecvTx.Height e
  end.

Definition txRollback (s : list TxRecord) (height : Z) (hash : ShaHash)
  : list TxRecord * bool :=
  let kept := filter (fun e => txHeight e < height) s in
  (kept, negb (length kept =? length s)%nat).

#[global] Instance collaborators : Collaborators wallet := {
  Wallet_Name := wname;
  Wallet_Net := wnet;
  Wallet_Lock := lock;
  Wallet_Unlock := unlock;
  Wallet_LastChainedAddress := lastChainedAddress;
  Wallet_NextChainedAddress := nextChainedAddress;
  Wallet_ImportPrivateKey := importPrivateKey;
  DecodePrivateKey := decodePrivateKey;
  UtxoStore_Rollback := utxoRollback;
  TxStore_Rollback := txRollback
}.

(** Sample data. *)
Definition h20 (b : Byte.byte) : bytes := repeat b 20.

Definition addr1 : Address.t := Address.mk "1first" (h20 Byte.x01) true.
Definition addr2 : Address.t := Address.mk "1second" (h20 Byte.x02) true.

Definition wallet0 : wallet :=
  mk "savings" MainNet [Byte.x70; Byte.x77] false [addr1] [addr2] [].

Definition recv (b : Byte.byte) (amount height : Z) : TxRecord :=
  IsRecvTx (RecvTx.mk (h20 b) amount height [b]).

Definition send2 (height : Z) : TxRecord :=
  IsSendTx (SendTx.mk [(h20 Byte.x0a, 7); (h20 Byte.x0b, 8)] height [Byte.xff]).

Definition utxo (b : Byte.byte) (amount height : Z) : Utxo.t :=
  Utxo.mk [b] 0 (h20 b) amount height.

Definition account0 : Account wallet :=
  mkAccount wallet0 "savings" false false
    false [utxo Byte.x01 50 90; utxo Byte.x02 25 100; utxo Byte.x03 5 (-1)]
    false [recv Byte.x09 10 90; send2 95; recv Byte.x08 20 100].

Definition best (height : Z) : BlockStamp.t := BlockStamp.mk height [Byte.xbb].

(** A world in which the provider answers height 100 and every collaborator
    works. *)
Definition world0 : World wallet :=
  mkWorld account0 ∅ (best 100, None) [] None [].

Definition with_account (a : Account wallet) (w : World wallet) : World wallet :=
  set_acct a w.

Definition with_curBlock (b : BlockStamp.t * option error) (w : World wallet) : World wallet :=
  mkWorld (acct w) (addressAccountMap w) b (disk w) (nodePeer w) (trace w).

Definition disk_full : error := ErrCollaborator "no space left on device".

(** A world whose disk refuses the next write. *)
Definition world_disk_full : World wallet := set_disk [Some disk_full] world0.

(** A world whose provider answers the Unknown height without an error. *)
Definition world_unknown : World wallet := with_curBlock (best (-1), None) world0.

(** A world whose transaction store holds five records. *)
Definition r0 : TxRecord := recv Byte.x10 1 90.
Definition r1 : TxRecord := send2 91.
Definition r2 : TxRecord := recv Byte.x12 3 92.
Definition r3 : TxRecord := send2 93.
Definition r4 : TxRecord := recv Byte.x14 5 (-1).

Definition world5 : World wallet :=
  with_account (set_TxStore false [r0; r1; r2; r3; r4] account0) world0.

End Sample.

(** ** The queries of account.go on the wallet's keys and addresses *)

(** [wallet.AddressInfo], with the fields [account.go] reads; [Addr] is the
    field [Address] of the source. *)
Module AddressInfo.
Record t : Type := mk {
  Addr : Address.t;
  Compressed : bool
}.
End AddressInfo.

(** Further methods of the embedded wallet, and [btcutil.EncodePrivateKey].
    [account.go] calls these under its read lock; they answer from the
    wallet's state.  [Wallet_ActiveAddresses] lists the entries of the map
    that [ActiveAddresses()] returns in the order in which the [range]
    statement visits them; [Wallet_AddressKey] gives [key.D.Bytes()] of the
    key it finds. *)
Class WalletQueries (W : Type) : Type := {
  Wallet_ActiveAddresses : W -> list (Address.t * AddressInfo.t);
  Wallet_SortedActiveAddresses : W -> list AddressInfo.t;
  Wallet_AddressKey : W -> Address.t -> result bytes;
  Wallet_AddressInfo : W -> Address.t -> result AddressInfo.t;
  Wallet_EarliestBlockHeight : W -> Z;
  Wallet_SyncedWith : W -> BlockStamp.t;
  EncodePrivateKey : bytes -> BitcoinNet -> bool -> result string
}.

Section Queries.
Context {W : Type} `{!Collaborators W} `{!WalletQueries W}.
Local Open Scope go_scope.

(** The loop of [Account.DumpPrivKeys] over the active addresses. *)
Fixpoint DumpPrivKeys_loop (w : World W) (actives : list (Address.t * AddressInfo.t))
  (privkeys : list string) : result (list string) :=
  match actives with
  | [] => Ok privkeys
  | (addr, info) :: rest =>
      match Wallet_AddressKey (Wallet (acct w)) addr with
      | Err e => Err e
      | Ok key =>
          match EncodePrivateKey key (Net w) (AddressInfo.Compressed info) with
          | Err e => Err e
          | Ok encKey => DumpPrivKeys_loop w rest (privkeys ++ [encKey])
          end
      end
  end.

(** [Account.DumpPrivKeys]. *)
Definition DumpPrivKeys (w : World W) : result (list string) :=
  DumpPrivKeys_loop w (Wallet_ActiveAddresses (Wallet (acct w))) [].

(** [Account.DumpWIFPrivateKey]. *)
Definition DumpWIFPrivateKey (w : World W) (addr : Address.t) : result string :=
  match Wallet_AddressKey (Wallet (acct w)) addr with
  | Err e => Err e
  | Ok key =>
      match Wallet_AddressInfo (Wallet (acct w)) addr with
      | Err e => Err e
      | Ok info => EncodePrivateKey key (Net w) (AddressInfo.Compressed info)
      end
  end.

(** [Account.SortedActivePaymentAddresses]. *)
Definition SortedActivePaymentAddresses (w : World W) : list string :=
  map (fun info => Address.EncodeAddress (AddressInfo.Addr info))
    (Wallet_SortedActiveAddresses (Wallet (acct w))).

(** [Account.ActivePaymentAddresses]: the loop puts the encoding of each
    entry into a map used as a set. *)
Definition ActivePaymentAddresses (w : World W) : gset string :=
  fold_left (fun addrs (entry : Address.t * AddressInfo.t) =>
               {[ Address.EncodeAddress (AddressInfo.Addr (snd entry)) ]} ∪ addrs)
    (Wallet_ActiveAddresses (Wallet (acct w))) ∅.

(** The block at which [RescanActiveAddresses] begins: the wallet's earliest
    block height for a full rescan, and otherwise [bs.Height + 1], in int32,
    for the block stamp [bs] the wallet is synced with. *)
Definition rescan_beginBlock (a : Account W) : Z :=
  if fullRescan a then Wallet_EarliestBlockHeight (Wallet a)
  else GoInt.int32_add (BlockStamp.Height (Wallet_SyncedWith (Wallet a))) 1.

(** [Account.RescanActiveAddresses].  The set of addresses goes into the
    request as the list of its elements. *)
Definition RescanActiveAddresses : M W unit :=
  let* a := read acct in
  let beginBlock := rescan_beginBlock a in
  let* _ :=
    if fullRescan a
    then emit (EvLogDebug "Rescanning account for new transactions since block height"
                 (name a))
    else emit (EvLogDebug "Rescanning account for new transactions after block height"
                 (name a)) in
  let* addrs := read ActivePaymentAddresses in
  let* _ := Rescan beginBlock (elements addrs) in
  let* _ := writeDirtyToDisk in
  ret tt.

(** What [DumpPrivKeys] does for one active address: the key is found and
    encoded as [key], or one of the two steps fails with [e]. *)
Definition dumps_to (w : World W) (entry : Address.t * AddressInfo.t) (key : string) : Prop :=
  exists d, Wallet_AddressKey (Wallet (acct w)) (fst entry) = Ok d
            /\ EncodePrivateKey d (Net w) (AddressInfo.Compressed (snd entry)) = Ok key.

Definition dump_fails_with (w : World W) (e : error) (entry : Address.t * AddressInfo.t) : Prop :=
  Wallet_AddressKey (Wallet (acct w)) (fst entry) = Err e
  \/ exists d, Wallet_AddressKey (Wallet (acct w)) (fst entry) = Ok d
               /\ EncodePrivateKey d (Net w) (AddressInfo.Compressed (snd entry)) = Err e.

End Queries.

(** The requests to the node peer among the events. *)
Definition is_NotifyNewTXs (ev : event) : bool :=
  match ev with
  | EvNotifyNewTXs _ => true
  | _ => false
  end.

Definition is_Rescan (ev : event) : bool :=
  match ev with
  | EvRescan _ _ => true
  | _ => false
  end.

(** The calls of the wallet's [NextChainedAddress] among the events. *)
Definition is_NextChainedAddress (ev : event) : bool :=
  match ev with
  | EvWallet (CallNextChainedAddress _) => true
  | _ => false
  end.

(** The account with [e] appended to its transaction store. *)
Definition append_tx {W : Type} (e : TxRecord) (w : World W) : World W :=
  set_acct (set_TxStore (TxStore_dirty (acct w)) (TxStore_s (acct w) ++ [e]) (acct w)) w.

(** The account with another unspent-output store. *)
Definition with_utxos {W : Type} (s : list Utxo.t) (w : World W) : World W :=
  set_acct (set_UtxoStore (UtxoStore_dirty (acct w)) s (acct w)) w.

(** The receive records of a store that [ListAddressTransactions] reports
    for the set [pkHashes], oldest first. *)
Definition received_by (pkHashes : gset string) (s : list TxRecord) : list RecvTx.t :=
  omap (fun e =>
          match e with
          | IsRecvTx rtx =>
              if bool_decide (String.string_of_list_byte (RecvTx.ReceiverHash rtx) ∈ pkHashes)
              then Some rtx else None
          | IsSendTx _ => None
          end) s.

(** A concrete instance of the wallet's queries on the sample wallet. *)
Module SampleQueries.

Definition info_of (a : Address.t) : AddressInfo.t := AddressInfo.mk a true.

Definition knows (wl : Sample.wallet) (a : Address.t) : bool :=
  existsb (fun b => String.eqb (Address.EncodeAddress a) (Address.EncodeAddress b))
    (Sample.issued wl).

(** The key of an address: here, its script address followed by twelve
    bytes of padding.  A locked wallet gives out no key. *)
Definition addressKey (wl : Sample.wallet) (a : Address.t) : result bytes :=
  if Sample.locked wl then Err (ErrCollaborator "wallet is locked")
  else if knows wl a then Ok (Address.ScriptAddress a ++ repeat Byte.x2a 12)
  else Err (ErrCollaborator "address not found").

Definition addressInfo (wl : Sample.wallet) (a : Address.t) : result AddressInfo.t :=
  if knows wl a then Ok (info_of a) else Err (ErrCollaborator "address not found").

(** The inverse of [Sample.decodePrivateKey]. *)
Definition encodePrivateKey (key : bytes) (net : BitcoinNet) (compressed : bool)
  : result string :=
  if net =? MainNet
  then Ok (String (if compressed then "K"%char else "5"%char)
             (String.string_of_list_byte key))
  else if net =? TestNet3
  then Ok (String (if compressed then "c"%char else "9"%char)
             (String.string_of_list_byte key))
  else Err (ErrCollaborator "unknown network").

#[global] Instance queries : WalletQueries Sample.wallet := {
  Wallet_ActiveAddresses := fun wl => map (fun a => (a, info_of a)) (Sample.issued wl);
  Wallet_SortedActiveAddresses := fun wl => map info_of (Sample.issued wl);
  Wallet_AddressKey := addressKey;
  Wallet_AddressInfo := addressInfo;
  Wallet_EarliestBlockHeight := fun _ => 42;
  Wallet_SyncedWith := fun _ => Sample.best 99;
  EncodePrivateKey := encodePrivateKey
}.

(** A test-network account, with a wallet of its own. *)
Definition wallet_testnet : Sample.wallet :=
  Sample.mk "testing" TestNet3 [Byte.x74] false [] [] [].

Definition world_testnet : World Sample.wallet :=
  Sample.with_account
    (mkAccount wallet_testnet "testing" false false false [] false []) Sample.world0.

(** An account that has issued both sample addresses. *)
Definition world_two_addresses : World Sample.wallet :=
  Sample.with_account
    (set_Wallet (Sample.mk "savings" MainNet [Byte.x70; Byte.x77] false
                   [Sample.addr1; Sample.addr2] [] [])
       Sample.account0)
    Sample.world0.

End SampleQueries.

(** Unfolds a method down to the steps on the world. *)
Ltac run_method :=
  unfold NewAddress, ImportWIFPrivateKey, ImportPrivKey, Rollback, Rescan,
    ReqNewTxsForAddress, NotifyNewTXs, GetCurBlock, writeDirtyToDisk,
    MarkAddressForAccount, wallet_call, update, emit, read, bind, ret.

(** * Properties *)

(** ** Machine integers *)

Lemma wrap_signed_fits (bits x : Z) :
  1 <= bits -> GoInt.in_signed bits x -> GoInt.wrap_signed bits x = x.
Proof.
  unfold GoInt.in_signed, GoInt.wrap_signed. intros Hbits Hx.
  assert (Hpow : 2 ^ bits = 2 * 2 ^ (bits - 1)).
  { replace bits with (Z.succ (bits - 1)) at 1 by lia. apply Z.pow_succ_r. lia. }
  rewrite Z.mod_small; lia.
Qed.

Lemma wrap_signed_range (bits x : Z) :
  1 <= bits -> GoInt.in_signed bits (GoInt.wrap_signed bits x).
Proof.
  unfold GoInt.in_signed, GoInt.wrap_signed. intros Hbits.
  assert (Hpow : 2 ^ bits = 2 * 2 ^ (bits - 1)).
  { replace bits with (Z.succ (bits - 1)) at 1 by lia. apply Z.pow_succ_r. lia. }
  assert (Hpos : 0 < 2 ^ (bits - 1)) by (apply Z.pow_pos_nonneg; lia).
  pose proof (Z.mod_pos_bound (x + 2 ^ (bits - 1)) (2 ^ bits)). lia.
Qed.

(** The two int32 steps of [bs.Height-u.Height+1] give the integer
    [H - h + 1] whenever that fits in int32, also when [H - h] does not. *)
Lemma int32_confirmations_fit (H h : Z) :
  GoInt.in_signed 32 (H - h + 1) ->
  GoInt.int32_add (GoInt.int32_sub H h) 1 = H - h + 1.
Proof.
  unfold GoInt.in_signed, GoInt.int32_add, GoInt.int32_sub, GoInt.wrap_signed.
  change (2 ^ (32 - 1)) with 2147483648. change (2 ^ 32) with 4294967296.
  intros Hfit.
  replace ((H - h + 2147483648) mod 4294967296 - 2147483648 + 1 + 2147483648)
    with ((H - h + 2147483648) mod 4294967296 + 1) by lia.
  rewrite Zplus_mod_idemp_l.
  rewrite Z.mod_small; lia.
Qed.

(** ** Balances *)

Lemma fold_left_agree {A B : Type} (f g : A -> B -> A) (l : list B) (a : A) :
  Forall (fun x => forall a, f a x = g a x) l -> fold_left f l a = fold_left g l a.
Proof.
  intros Hl. revert a. induction Hl as [|x l Hx _ IH]; intros a; simpl.
  - reflexivity.
  - rewrite Hx. apply IH.
Qed.

(** The accumulator of the balance loops: the sum, modulo [2^64], of the
    amounts the test lets through. *)
Lemma balance_loop_sum (p : Utxo.t -> bool) (s : list Utxo.t) (b : Z) :
  0 <= b < 2 ^ 64 ->
  fold_left (fun bal u => if p u then GoInt.uint64_add bal (Utxo.Amt u) else bal) s b
  = (b + foldr Z.add 0 (Utxo.Amt <$> filter (fun u => p u = true) s)) mod 2 ^ 64.
Proof.
  unfold GoInt.uint64_add. change (2 ^ 64) with 18446744073709551616.
  revert b. induction s as [|u s IH]; intros b Hb; simpl.
  - rewrite Z.add_0_r, Z.mod_small; lia.
  - rewrite filter_cons. destruct (p u) eqn:Hp.
    + rewrite decide_True by done. rewrite IH.
      * rewrite fmap_cons. cbn [foldr]. rewrite Zplus_mod_idemp_l. f_equal. lia.
      * apply Z.mod_pos_bound. lia.
    + rewrite decide_False by discriminate. apply IH, Hb.
Qed.

Lemma counts_towards_passes_filter (confirms : Z) (bs : BlockStamp.t) (u : Utxo.t) :
  confirmations_fit (BlockStamp.Height bs) u ->
  counts_towards confirms bs u = passes_filter (BlockStamp.Height bs) confirms u.
Proof.
  intros Hfit. unfold counts_towards, passes_filter.
  destruct (Z.eqb_spec (Utxo.Height u) (-1)) as [Hm|Hm].
  - simpl. destruct (confirms =? 0); reflexivity.
  - rewrite int32_confirmations_fit by exact (Hfit Hm).
    destruct (confirms =? 0); reflexivity.
Qed.

(** Heights as they occur: a best height from 0 up to [2^31 - 2], and
    entries that are unconfirmed or at a height from 0 up to [2^31 - 1]. *)
Lemma confirmations_fit_in_practice (H : Z) (u : Utxo.t) :
  0 <= H < 2 ^ 31 - 1 ->
  -1 <= Utxo.Height u < 2 ^ 31 ->
  confirmations_fit H u.
Proof.
  unfold confirmations_fit, GoInt.in_signed.
  change (2 ^ (32 - 1)) with 2147483648. change (2 ^ 31) with 2147483648.
  lia.
Qed.

Lemma passes_filter_iff (H confirms : Z) (u : Utxo.t) :
  0 <= confirms ->
  passes_filter H confirms u = true
  <-> confirms = 0 \/ (1 <= confirms /\ Utxo.Height u <> -1 /\ H - Utxo.Height u + 1 >= confirms).
Proof.
  intros Hc. unfold passes_filter.
  destruct (Z.eqb_spec confirms 0) as [->|Hne].
  - split; [left; reflexivity | reflexivity].
  - rewrite andb_true_iff, negb_true_iff, Z.eqb_neq, Z.leb_le. split.
    + intros [Hh Hle]. right. lia.
    + intros [Heq | (_ & Hh & Hge)]; [contradiction | split; [exact Hh | lia]].
Qed.

Section Balances.
Context {W : Type}.

(** For every store, height and [confirms]: the balance is the conversion
    of the sum, modulo [2^64], of the amounts the loop's test lets through. *)
Lemma CalculateBalance_sums_counted (w : World W) (confirms : Z) :
  snd (curBlock w) = None ->
  BlockStamp.Height (fst (curBlock w)) <> BlockHeightUnknown ->
  CalculateBalance w confirms
  = bitcoin_of_satoshi
      (foldr Z.add 0
         (Utxo.Amt <$> filter (fun u => counts_towards confirms (fst (curBlock w)) u = true)
                         (UtxoStore_s (acct w)))
       mod 2 ^ 64).
Proof.
  intros Herr Hknown. unfold CalculateBalance.
  destruct (curBlock w) as [bs err]. simpl in *. subst err.
  apply Z.eqb_neq in Hknown. rewrite Hknown. simpl.
  f_equal. rewrite <- (Z.add_0_l (foldr _ _ _)).
  rewrite <- balance_loop_sum by (split; [lia | apply Z.pow_pos_nonneg; lia]).
  reflexivity.
Qed.

(** C1 (as amended).  When the provider answers with a valid height [H],
    [CalculateBalance(confirmations)] is the conversion to bitcoin of the
    sum, modulo [2^64], of the amounts of exactly the entries that pass the
    confirmation filter: every entry when [confirmations == 0], and for
    [confirmations >= 1] the entries with [height != -1] and
    [H - height + 1 >= confirmations] -- provided [H - height + 1] fits in
    int32, the type in which the code computes it, for every confirmed entry
    of the store. *)
Theorem CalculateBalance_sums_passing (w : World W) (confirms : Z) :
  let H := BlockStamp.Height (fst (curBlock w)) in
  snd (curBlock w) = None ->
  H <> BlockHeightUnknown ->
  0 <= confirms ->
  Forall (confirmations_fit H) (UtxoStore_s (acct w)) ->
  CalculateBalance w confirms
  = bitcoin_of_satoshi (filtered_sum H confirms (UtxoStore_s (acct w)) mod 2 ^ 64)
  /\ forall u, u ∈ UtxoStore_s (acct w) ->
       (u ∈ filter (fun u => passes_filter H confirms u = true) (UtxoStore_s (acct w))
        <-> confirms = 0
            \/ (1 <= confirms /\ Utxo.Height u <> -1 /\ H - Utxo.Height u + 1 >= confirms)).
Proof.
  intros H Herr Hknown Hc Hfit. split.
  - unfold CalculateBalance. subst H.
    destruct (curBlock w) as [bs err]. simpl in *. subst err.
    apply Z.eqb_neq in Hknown. rewrite Hknown. simpl.
      f_equal. unfold filtered_sum.
    rewrite <- (Z.add_0_l (foldr _ _ _)).
    rewrite <- balance_loop_sum by (split; [lia | apply Z.pow_pos_nonneg; lia]).
    apply fold_left_agree.
    eapply Forall_impl; [exact Hfit|]. simpl. intros u Hu bal.
    rewrite counts_towards_passes_filter by exact Hu. reflexivity.
  - intros u Hu. rewrite list_elem_of_filter, passes_filter_iff by exact Hc. tauto.
Qed.

(** [CalculateAddressBalance] applies the same filter and keeps, of the
    entries that pass, those paying to the address. *)
Lemma CalculateAddressBalance_sums_passing (w : World W) (addr : Address.t) (confirms : Z) :
  let H := BlockStamp.Height (fst (curBlock w)) in
  snd (curBlock w) = None ->
  H <> BlockHeightUnknown ->
  Forall (confirmations_fit H) (UtxoStore_s (acct w)) ->
  CalculateAddressBalance w addr confirms
  = bitcoin_of_satoshi
      (foldr Z.add 0
         (Utxo.Amt <$> filter (fun u => passes_filter H confirms u
                                        && bytes_Equal (Address.ScriptAddress addr) (Utxo.AddrHash u)
                                        = true)
                         (UtxoStore_s (acct w)))
       mod 2 ^ 64).
Proof.
  intros H Herr Hknown Hfit.
  unfold CalculateAddressBalance. subst H.
  destruct (curBlock w) as [bs err]. simpl in *. subst err.
  apply Z.eqb_neq in Hknown. rewrite Hknown. simpl.
  f_equal.
  rewrite <- (Z.add_0_l (foldr _ _ _)).
  rewrite <- balance_loop_sum by (split; [lia | apply Z.pow_pos_nonneg; lia]).
  apply fold_left_agree.
  eapply Forall_impl; [exact Hfit|]. simpl. intros u Hu bal.
  rewrite counts_towards_passes_filter by exact Hu.
  destruct (passes_filter _ _ _); reflexivity.
Qed.

End Balances.

(** ** The downward loop of the history queries *)

Section DownwardLoop.
Context (s : list TxRecord) (continue : Z -> bool) (lo : Z).
Hypothesis continue_above : forall i, continue i = (lo <=? i).

(** With a bound [lo >= 0] the loop stops before [i] leaves the store; what
    it has appended are the contributions of the records from [k - 1] down
    to [lo]. *)
Lemma downward_loop_appends {B : Type} (g : TxRecord -> list B) (k : nat) (acc : list B) :
  0 <= lo -> (k <= length s)%nat ->
  downward_loop s continue (fun _ e acc => acc ++ g e) k acc
  = Returns (acc ++ flat_map g (rev (drop (Z.to_nat lo) (take k s)))).
Proof.
  intros Hlo. revert acc. induction k as [|i IH]; intros acc Hk.
  - cbn [downward_loop]. rewrite continue_above.
    destruct (Z.leb_spec lo (Z.of_nat 0 - 1)); [lia|].
    rewrite take_0, drop_nil. simpl. rewrite app_nil_r. reflexivity.
  - cbn [downward_loop]. rewrite continue_above.
    replace (Z.of_nat (S i) - 1) with (Z.of_nat i) by lia.
    destruct (Z.leb_spec lo (Z.of_nat i)) as [Hle|Hgt].
    + destruct (lookup_lt_is_Some_2 s i) as [e He]; [lia|].
      rewrite He, IH by lia. rewrite (take_S_r _ _ _ He).
      rewrite drop_app_le by (rewrite length_take; lia).
      rewrite rev_app_distr. simpl. rewrite <- app_assoc. reflexivity.
    + rewrite drop_ge by (rewrite length_take; lia).
      simpl. rewrite app_nil_r. reflexivity.
Qed.

(** The indices it visits are [k - 1], ..., [lo], in this order. *)
Lemma downward_loop_indices (k : nat) (acc : list Z) :
  0 <= lo -> (k <= length s)%nat ->
  downward_loop s continue (fun i _ visited => visited ++ [Z.of_nat i]) k acc
  = Returns (acc ++ rev (seqZ lo (Z.of_nat k - lo))).
Proof.
  intros Hlo. revert acc. induction k as [|i IH]; intros acc Hk.
  - cbn [downward_loop]. rewrite continue_above.
    destruct (Z.leb_spec lo (Z.of_nat 0 - 1)); [lia|].
    rewrite seqZ_nil by lia. simpl. rewrite app_nil_r. reflexivity.
  - cbn [downward_loop]. rewrite continue_above.
    replace (Z.of_nat (S i) - 1) with (Z.of_nat i) by lia.
    destruct (Z.leb_spec lo (Z.of_nat i)) as [Hle|Hgt].
    + destruct (lookup_lt_is_Some_2 s i) as [e He]; [lia|].
      rewrite He, IH by lia.
      replace (Z.of_nat (S i) - lo) with ((Z.of_nat i - lo) + 1) by lia.
      rewrite seqZ_app by lia. rewrite rev_app_distr.
      replace (lo + (Z.of_nat i - lo)) with (Z.of_nat i) by lia.
      rewrite <- app_assoc. reflexivity.
    + rewrite seqZ_nil by lia. simpl. rewrite app_nil_r. reflexivity.
Qed.

(** With a bound below zero the loop walks off the front of the store. *)
Lemma downward_loop_panics {A : Type} (body : nat -> TxRecord -> A -> A) (k : nat) (acc : A) :
  lo < 0 -> (k <= length s)%nat ->
  downward_loop s continue body k acc = Panics.
Proof.
  intros Hlo. revert acc. induction k as [|i IH]; intros acc Hk.
  - cbn [downward_loop]. rewrite continue_above.
    destruct (Z.leb_spec lo (Z.of_nat 0 - 1)); [reflexivity|lia].
  - cbn [downward_loop]. rewrite continue_above.
    destruct (Z.leb_spec lo (Z.of_nat (S i) - 1)); [|lia].
    destruct (lookup_lt_is_Some_2 s i) as [e He]; [lia|].
    rewrite He. apply IH. lia.
Qed.

End DownwardLoop.

(** The two tests of [ListTransactions]'s loop amount to one lower bound,
    [max(from, n - count)], as long as [n - count] fits in an int. *)
Lemma ListTransactions_continue_max (n from count i : Z) :
  GoInt.in_signed 64 (n - count) ->
  ListTransactions_continue n from count i = (Z.max from (n - count) <=? i).
Proof.
  intros Hfit. unfold ListTransactions_continue, GoInt.int_sub, GoInt.int_bits.
  rewrite wrap_signed_fits by (lia || exact Hfit).
  destruct (Z.leb_spec from i), (Z.leb_spec (n - count) i),
    (Z.leb_spec (Z.max from (n - count)) i); simpl; lia || reflexivity.
Qed.

(** Most recent first, skipping none and taking [count]: the records from
    index [max(0, n - count)] on, reversed. *)
Lemma ListRecent_records_from_0 (s : list TxRecord) (count : Z) :
  0 <= count ->
  ListRecent_records s 0 count
  = rev (drop (Z.to_nat (Z.max 0 (Z.of_nat (length s) - count))) s).
Proof.
  intros Hc. unfold ListRecent_records.
  change (Z.to_nat 0) with 0%nat. rewrite drop_0.
  rewrite firstn_rev. do 2 f_equal. lia.
Qed.

(** ** History queries *)

Section History.
Context {W : Type} `{!Collaborators W}.

Lemma ListTransactions_unfold (w : World W) (from count : Z) :
  snd (curBlock w) = None ->
  ListTransactions w from count
  = match downward_loop (TxStore_s (acct w))
            (ListTransactions_continue (Z.of_nat (length (TxStore_s (acct w)))) from count)
            (fun _ e txInfoList => txInfoList ++ rows_in w e)
            (length (TxStore_s (acct w))) [] with
    | Returns txInfoList => Returns (Ok txInfoList)
    | Panics => Panics
    end.
Proof.
  unfold ListTransactions, rows_in. destruct (curBlock w) as [bs err]. simpl.
  intros ->. reflexivity.
Qed.

Lemma ListTransactions_from_bound (w : World W) (from count : Z) :
  let s := TxStore_s (acct w) in
  let n := Z.of_nat (length s) in
  snd (curBlock w) = None ->
  GoInt.in_signed 64 (n - count) ->
  0 <= Z.max from (n - count) ->
  ListTransactions w from count
  = Returns (Ok (flat_map (rows_in w) (rev (drop (Z.to_nat (Z.max from (n - count))) s)))).
Proof.
  intros s n Herr Hfit Hlo. rewrite ListTransactions_unfold by exact Herr.
  fold s. fold n.
  rewrite (downward_loop_appends s _ (Z.max from (n - count))); [|
    intros i; apply ListTransactions_continue_max, Hfit | exact Hlo | lia].
  rewrite take_ge by lia. reflexivity.
Qed.

Lemma ListTransactions_below_0 (w : World W) (from count : Z) :
  let n := Z.of_nat (length (TxStore_s (acct w))) in
  snd (curBlock w) = None ->
  GoInt.in_signed 64 (n - count) ->
  Z.max from (n - count) < 0 ->
  ListTransactions w from count = Panics.
Proof.
  intros n Herr Hfit Hlo. rewrite ListTransactions_unfold by exact Herr.
  rewrite (downward_loop_panics _ _ (Z.max from (n - count))); [reflexivity| |exact Hlo|lia].
  intros i. apply ListTransactions_continue_max, Hfit.
Qed.

(** C2 (as amended).  When the provider answers without an error,
    [n - count] fits in an int and [max(from, n - count) >= 0],
    [ListTransactions(from, count)] returns the rows of the records at the
    indices [max(from, n - count)], ..., [n - 1] of the store, most recently
    appended first: [from] is a lower bound on the index counted from the
    start of the store.  Each send record gives one row per output and each
    receive record exactly one.  For [from == 0] and [count >= 0] these are
    the [count] most recently appended records, as the specification
    describes them; on a store of five records, [ListTransactions(0, 3)]
    returns the rows of the three most recently appended ones, most recent
    first. *)
Theorem ListTransactions_rows (w : World W) (from count : Z) :
  let s := TxStore_s (acct w) in
  let n := Z.of_nat (length s) in
  snd (curBlock w) = None ->
  GoInt.in_signed 64 (n - count) ->
  0 <= Z.max from (n - count) ->
  ListTransactions w from count
  = Returns (Ok (flat_map (rows_in w) (rev (drop (Z.to_nat (Z.max from (n - count))) s))))
  /\ (from = 0 -> 0 <= count ->
      ListTransactions w from count
      = Returns (Ok (flat_map (rows_in w) (ListRecent_records s from count))))
  /\ (forall r0 r1 r2 r3 r4, s = [r0; r1; r2; r3; r4] -> from = 0 -> count = 3 ->
      ListTransactions w from count
      = Returns (Ok (rows_in w r4 ++ rows_in w r3 ++ rows_in w r2)))
  /\ (forall e, length (rows_in w (IsSendTx e)) = length (SendTx.Outputs e))
  /\ (forall e, length (rows_in w (IsRecvTx e)) = 1%nat).
Proof.
  intros s n Herr Hfit Hlo. split; [|split; [|split; [|split]]].
  - apply ListTransactions_from_bound; assumption.
  - intros -> Hc. rewrite ListRecent_records_from_0 by exact Hc.
    apply ListTransactions_from_bound; assumption.
  - intros r0 r1 r2 r3 r4 Hs -> ->.
    rewrite ListTransactions_from_bound by assumption.
    fold s. fold n. subst n. rewrite Hs. simpl. rewrite app_nil_r. reflexivity.
  - intros e. unfold rows_in, TxInfo_of, SendTx_TxInfo. apply length_map.
  - intros e. reflexivity.
Qed.

(** Where the missing test [i >= 0] does not matter: for a store of length
    [n], when [n - count] fits in an int and [from >= 0] or [count <= n],
    [ListTransactions] never indexes out of the store's bounds: it visits
    exactly the indices [i] with [max(from, n - count) <= i <= n - 1], from
    the highest down; so [count >= n] with [from == 0] yields rows for every
    record, and [from >= n] yields an empty result without error. *)
Theorem ListTransactions_in_bounds (w : World W) (from count : Z) :
  let s := TxStore_s (acct w) in
  let n := Z.of_nat (length s) in
  let lo := Z.max from (n - count) in
  GoInt.in_signed 64 (n - count) ->
  0 <= from \/ count <= n ->
  ListTransactions_visits s from count = Returns (rev (seqZ lo (n - lo)))
  /\ (forall i, i ∈ rev (seqZ lo (n - lo)) <-> lo <= i <= n - 1)
  /\ (forall i, i ∈ rev (seqZ lo (n - lo)) -> 0 <= i < n)
  /\ (exists r, ListTransactions w from count = Returns r)
  /\ (snd (curBlock w) = None -> from = 0 -> n <= count ->
      ListTransactions w from count = Returns (Ok (flat_map (rows_in w) (rev s))))
  /\ (snd (curBlock w) = None -> n <= from ->
      ListTransactions w from count = Returns (Ok [])).
Proof.
  intros s n lo Hfit Hdom.
  assert (Hlo : 0 <= lo) by (subst lo; lia).
  assert (Hmem : forall i, i ∈ rev (seqZ lo (n - lo)) <-> lo <= i <= n - 1).
  { intros i. rewrite list_elem_of_In, <- in_rev, <- list_elem_of_In, elem_of_seqZ. lia. }
  split; [|split; [|split; [|split; [|split]]]].
  - unfold ListTransactions_visits. fold s. fold n.
    rewrite (downward_loop_indices s _ lo); [reflexivity| |exact Hlo|lia].
    intros i. apply ListTransactions_continue_max, Hfit.
  - exact Hmem.
  - intros i Hi. apply Hmem in Hi. lia.
  - destruct (snd (curBlock w)) as [e|] eqn:Herr.
    + exists (Err e). unfold ListTransactions.
      destruct (curBlock w) as [bs err]. simpl in Herr. subst err. reflexivity.
    + eexists. apply ListTransactions_from_bound; [exact Herr|exact Hfit|exact Hlo].
  - intros Herr -> Hall.
    rewrite ListTransactions_from_bound by (assumption || lia).
    fold s. fold n. replace (Z.max 0 (n - count)) with 0 by lia. reflexivity.
  - intros Herr Hfrom.
    rewrite ListTransactions_from_bound by (assumption || lia).
    fold s. fold n. rewrite drop_ge by lia. reflexivity.
Qed.

Lemma ListAllTransactions_rows (w : World W) :
  ListAllTransactions w
  = Returns (match snd (curBlock w) with
             | Some e => Err e
             | None => Ok (flat_map (rows_in w) (rev (TxStore_s (acct w))))
             end).
Proof.
  unfold ListAllTransactions, rows_in. destruct (curBlock w) as [bs [e|]]; simpl.
  - reflexivity.
  - rewrite (downward_loop_appends _ _ 0) by (reflexivity || lia).
    rewrite take_ge by lia. reflexivity.
Qed.

Lemma balances_zero (w : World W) :
  BlockStamp.Height (fst (curBlock w)) = BlockHeightUnknown \/ is_Some (snd (curBlock w)) ->
  (forall confirms, CalculateBalance w confirms = float64_zero)
  /\ (forall addr confirms, CalculateAddressBalance w addr confirms = float64_zero).
Proof.
  unfold CalculateBalance, CalculateAddressBalance.
  destruct (curBlock w) as [bs err]. simpl. intros Hbad.
  assert (Hguard : (BlockStamp.Height bs =? BlockHeightUnknown) || bool_decide (is_Some err) = true).
  { destruct Hbad as [->|Hsome].
    - reflexivity.
    - rewrite (bool_decide_eq_true_2 _ Hsome). apply orb_true_r. }
  rewrite Hguard. split; reflexivity.
Qed.

Lemma ListAddressTransactions_loop (pkHashes : gset string) (account : string)
  (curheight : Z) (net : BitcoinNet) (s : list TxRecord) (acc : list TxInfoRow.t) :
  fold_left
    (fun txInfoList e =>
       match e with
       | IsRecvTx rtx =>
           if bool_decide (String.string_of_list_byte (RecvTx.ReceiverHash rtx) ∈ pkHashes)
           then txInfoList ++ [RecvTx_TxInfo rtx account curheight net]
           else txInfoList
       | IsSendTx _ => txInfoList
       end) s acc
  = acc ++ map (fun rtx => RecvTx_TxInfo rtx account curheight net) (received_by pkHashes s).
Proof.
  revert acc. induction s as [|e s IH]; intros acc; simpl.
  - rewrite app_nil_r. reflexivity.
  - rewrite IH. destruct e as [stx|rtx]; [reflexivity|].
    destruct (bool_decide _); [|reflexivity].
    simpl. rewrite <- app_assoc. reflexivity.
Qed.

(** C10: the code against the claim.  The loop of [ListTransactions] runs
    while [i >= from && i >= lastLookupIdx] and has no test [i >= 0].  With
    a negative [from] and a [count] above the length of the store it goes on
    below index 0, and indexing the store at -1 panics: on every store, the
    empty one included, and for every such pair of ints.
    [ListAllTransactions], whose loop does test [i >= 0], returns the rows
    of every record of the same store. *)
Theorem ListTransactions_indexes_at_minus_1 (w : World W) (from count : Z) :
  let s := TxStore_s (acct w) in
  let n := Z.of_nat (length s) in
  snd (curBlock w) = None ->
  GoInt.in_signed 64 count ->
  from < 0 ->
  n < count ->
  ListTransactions w from count = Panics
  /\ ListAllTransactions w = Returns (Ok (flat_map (rows_in w) (rev s))).
Proof.
  intros s n Herr Hcount Hfrom Hn. split.
  - apply ListTransactions_below_0; [exact Herr| |fold s; fold n; lia].
    fold s. fold n. unfold GoInt.in_signed in *. lia.
  - rewrite ListAllTransactions_rows, Herr. reflexivity.
Qed.

(** C4 (as amended).  When the provider returns an error or the Unknown
    height, both balance methods return 0.  A history query returns an error
    exactly when the provider returned one, and then that error.  When the
    provider returns the Unknown height without an error, the history
    queries report no error: [ListAddressTransactions] and
    [ListAllTransactions] return their rows, and [ListTransactions] returns
    the rows of the records at the indices [max(from, n - count) .. n - 1]
    whenever [n - count] fits in an int and [max(from, n - count) >= 0]. *)
Theorem provider_failure_policy (w : World W) :
  let s := TxStore_s (acct w) in
  let n := Z.of_nat (length s) in
  BlockStamp.Height (fst (curBlock w)) = BlockHeightUnknown \/ is_Some (snd (curBlock w)) ->
  (forall confirms, CalculateBalance w confirms = float64_zero)
  /\ (forall addr confirms, CalculateAddressBalance w addr confirms = float64_zero)
  /\ (forall e, snd (curBlock w) = Some e ->
        (forall from count, ListTransactions w from count = Returns (Err e))
        /\ (forall pkHashes, ListAddressTransactions w pkHashes = Err e)
        /\ ListAllTransactions w = Returns (Err e))
  /\ (snd (curBlock w) = None ->
        (forall from count e, ListTransactions w from count <> Returns (Err e))
        /\ (forall from count,
              GoInt.in_signed 64 (n - count) ->
              0 <= Z.max from (n - count) ->
              ListTransactions w from count
              = Returns (Ok (flat_map (rows_in w)
                               (rev (drop (Z.to_nat (Z.max from (n - count))) s)))))
        /\ (forall pkHashes,
              ListAddressTransactions w pkHashes
              = Ok (map (fun rtx => RecvTx_TxInfo rtx (name (acct w))
                                      (BlockStamp.Height (fst (curBlock w))) (Net w))
                      (received_by pkHashes s)))
        /\ ListAllTransactions w = Returns (Ok (flat_map (rows_in w) (rev s)))).
Proof.
  intros s n Hbad. destruct (balances_zero w Hbad) as [Hbal Haddr].
  split; [exact Hbal|]. split; [exact Haddr|]. split.
  - intros e Herr. split; [|split].
    + intros from count. unfold ListTransactions.
      destruct (curBlock w) as [bs err]. simpl in Herr. subst err. reflexivity.
    + intros pkHashes. unfold ListAddressTransactions.
      destruct (curBlock w) as [bs err]. simpl in Herr. subst err. reflexivity.
    + rewrite ListAllTransactions_rows, Herr. reflexivity.
  - intros Herr. split; [|split; [|split]].
    + intros from count e. rewrite ListTransactions_unfold by exact Herr.
      destruct (downward_loop _ _ _ _ _); discriminate.
    + intros from count Hfit Hlo. apply ListTransactions_from_bound; assumption.
    + intros pkHashes. unfold ListAddressTransactions.
      destruct (curBlock w) as [bs err]. simpl in Herr. subst err. simpl.
      rewrite ListAddressTransactions_loop. reflexivity.
    + rewrite ListAllTransactions_rows, Herr. reflexivity.
Qed.

End History.

(** ** Lock state, rollback, and addresses *)

Section Mutations.
Context {W : Type} `{!Collaborators W}.

(** C9: the code against the claim.  [Account.Unlock] calls the wallet's
    [Unlock] twice: once to decide on the notification, and once more in its
    [return] statement, whose result is the one the caller gets.  ([Lock]
    returns the error of its single call.) *)
Theorem Unlock_calls_wallet_twice (w : World W) (passphrase : bytes) (timeout : Z) :
  let first := Wallet_Unlock (Wallet (acct w)) passphrase in
  let second := Wallet_Unlock (fst first) passphrase in
  Unlock passphrase timeout w
  = (set_trace
       (trace w
        ++ [EvWallet (CallUnlock passphrase)]
        ++ match snd first with
           | None => [EvNotifyWalletLockStateChange (Wallet_Name (fst first)) false]
           | Some _ => []
           end
        ++ [EvWallet (CallUnlock passphrase)])
       (set_acct (set_Wallet (fst second) (acct w)) w),
     snd second)
  /\ unlock_calls (trace (fst (Unlock passphrase timeout w)))
     = (unlock_calls (trace w) + 2)%nat.
Proof.
  intros first second.
  assert (Heq : Unlock passphrase timeout w
    = (set_trace
         (trace w
          ++ [EvWallet (CallUnlock passphrase)]
          ++ match snd first with
             | None => [EvNotifyWalletLockStateChange (Wallet_Name (fst first)) false]
             | Some _ => []
             end
          ++ [EvWallet (CallUnlock passphrase)])
         (set_acct (set_Wallet (fst second) (acct w)) w),
       snd second)).
  { subst second first. unfold Unlock, bind, wallet_call, read, emit, ret, Name.
    destruct (Wallet_Unlock (Wallet (acct w)) passphrase) as [wl1 [e1|]]; simpl;
      destruct (Wallet_Unlock wl1 passphrase) as [wl2 err2]; simpl;
      unfold set_trace, set_acct, set_Wallet; simpl;
      rewrite <- ?app_assoc; reflexivity. }
  split; [exact Heq|].
  rewrite Heq. simpl. unfold unlock_calls.
  rewrite !List.filter_app, !length_app.
  destruct (snd first); simpl; lia.
Qed.

(** [Account.Lock] calls the wallet once and returns that call's error. *)
Lemma Lock_calls_wallet_once (w : World W) :
  let r := Wallet_Lock (Wallet (acct w)) in
  snd (Lock w) = snd r
  /\ trace (fst (Lock w))
     = trace w ++ [EvWallet CallLock]
       ++ match snd r with
          | None => [EvNotifyWalletLockStateChange (Wallet_Name (fst r)) true]
          | Some _ => []
          end.
Proof.
  intros r. subst r. unfold Lock, bind, wallet_call, read, emit, ret, Name.
  destruct (Wallet_Lock (Wallet (acct w))) as [wl [e|]]; simpl;
    rewrite <- ?app_assoc, ?app_nil_r; split; reflexivity.
Qed.

Lemma AddressUsed_iff (w : World W) (a : Address.t) :
  AddressUsed w a = true
  <-> exists rtx, IsRecvTx rtx ∈ TxStore_s (acct w)
                  /\ RecvTx.ReceiverHash rtx = Address.ScriptAddress a.
Proof.
  unfold AddressUsed. rewrite existsb_exists. split.
  - intros [[e|rtx] [Hin Heq]]; [discriminate|].
    exists rtx. split; [apply list_elem_of_In, Hin|].
    unfold bytes_Equal in Heq. apply bool_decide_eq_true_1 in Heq. exact Heq.
  - intros (rtx & Hin & Heq). exists (IsRecvTx rtx).
    split; [apply list_elem_of_In, Hin|].
    unfold bytes_Equal. apply bool_decide_eq_true_2, Heq.
Qed.

(** C7.  [CurrentAddress()] returns the wallet's last chained address, and
    changes nothing, when [AddressUsed] is false for it.  Otherwise it is
    [NewAddress()]: it returns the provider's or the wallet's error when one
    of them fails, and else it has the wallet issue its next chained address
    (one call of [NextChainedAddress] with the current block), returns that
    address, and registers it for the account.  [AddressUsed(addr)] holds
    iff some receive record of the transaction store has a receiver hash
    equal to [addr]'s public-key hash. *)
Theorem CurrentAddress_advances_when_used (w : World W) :
  let last := Wallet_LastChainedAddress (Wallet (acct w)) in
  (AddressUsed w last = false -> CurrentAddress w = (w, Ok last))
  /\ (AddressUsed w last = true ->
      CurrentAddress w = NewAddress w
      /\ (forall e, snd (curBlock w) = Some e -> CurrentAddress w = (w, Err e))
      /\ (forall bs wl e,
            curBlock w = (bs, None) ->
            Wallet_NextChainedAddress (Wallet (acct w)) bs = (wl, Err e) ->
            snd (CurrentAddress w) = Err e
            /\ addressAccountMap (fst (CurrentAddress w)) = addressAccountMap w)
      /\ (forall bs wl next,
            curBlock w = (bs, None) ->
            Wallet_NextChainedAddress (Wallet (acct w)) bs = (wl, Ok next) ->
            snd (CurrentAddress w) = Ok next
            /\ Wallet (acct (fst (CurrentAddress w))) = wl
            /\ List.filter is_NextChainedAddress (trace (fst (CurrentAddress w)))
               = List.filter is_NextChainedAddress (trace w)
                 ++ [EvWallet (CallNextChainedAddress bs)]
            /\ LookupAccountByAddress (fst (CurrentAddress w)) (Address.EncodeAddress next)
               = Ok (Wallet_Name wl)))
  /\ (forall a : Address.t,
        AddressUsed w a = true
        <-> exists rtx, IsRecvTx rtx ∈ TxStore_s (acct w)
                        /\ RecvTx.ReceiverHash rtx = Address.ScriptAddress a).
Proof.
  intros last. split; [|split].
  - intros Hunused. unfold CurrentAddress, bind, read, ret. fold last.
    rewrite Hunused. reflexivity.
  - intros Hused.
    assert (Hnew : CurrentAddress w = NewAddress w).
    { unfold CurrentAddress, bind, read, ret. fold last. rewrite Hused. reflexivity. }
    rewrite Hnew. split; [reflexivity|]. split; [|split].
    + intros e Herr. run_method.
      destruct (curBlock w) as [bs err]. simpl in Herr. subst err. reflexivity.
    + intros bs wl e Hcur Hnext. run_method. rewrite Hcur, Hnext.
      split; reflexivity.
    + intros bs wl next Hcur Hnext. run_method. rewrite Hcur, Hnext. simpl.
      destruct (disk w) as [|[ed|] rest]; simpl;
        destruct (Address.IsPubKeyHash next); simpl;
        try destruct (nodePeer w); simpl;
        unfold LookupAccountByAddress; simpl; rewrite lookup_insert_eq;
        rewrite ?List.filter_app; simpl; rewrite ?app_nil_r;
        repeat split; reflexivity.
  - apply AddressUsed_iff.
Qed.

(** C5.  A key whose decoded network differs from the account's is refused
    with the wrong-network error by [ImportWIFPrivateKey], and so by
    [ImportPrivKey], and the world is left exactly as it was: wallet, both
    stores, dirty flags, registry, and no event. *)
Theorem import_wrong_network (w : World W) (wif : string) (bs : BlockStamp.t)
  (rescan : bool) (privkey : bytes) (net : BitcoinNet) (compressed : bool) :
  DecodePrivateKey wif = Ok (privkey, net, compressed) ->
  net <> Net w ->
  ImportWIFPrivateKey wif bs w = (w, Err ErrWrongNetwork)
  /\ ImportPrivKey wif rescan w = (w, Some ErrWrongNetwork).
Proof.
  intros Hdec Hnet.
  assert (Himp : forall bs', ImportWIFPrivateKey wif bs' w = (w, Err ErrWrongNetwork)).
  { intros bs'. unfold ImportWIFPrivateKey. rewrite Hdec.
    unfold bind, read, ret.
    apply Z.eqb_neq in Hnet. rewrite Hnet. reflexivity. }
  split; [apply Himp|].
  unfold ImportPrivKey, bind. rewrite Himp. reflexivity.
Qed.

End Mutations.

Section Registry.
Context {W : Type} `{!Collaborators W}.

Lemma NewAddress_registers (w w' : World W) (addr : Address.t) :
  NewAddress w = (w', Ok addr) ->
  LookupAccountByAddress w' (Address.EncodeAddress addr) = Ok (Name w').
Proof.
  run_method.
  destruct (curBlock w) as [bs [e|]]; [discriminate|].
  destruct (Wallet_NextChainedAddress (Wallet (acct w)) bs) as [wl [a|e]]; [|discriminate].
  simpl.
  destruct (disk w) as [|[e|] rest]; simpl;
    destruct (Address.IsPubKeyHash a); simpl;
    try destruct (nodePeer w); simpl;
    intros [= <- <-]; unfold LookupAccountByAddress, Name; simpl;
    rewrite lookup_insert_eq; reflexivity.
Qed.

Lemma ImportWIFPrivateKey_registers (w w' : World W) (wif : string) (bs : BlockStamp.t)
  (address : string) :
  ImportWIFPrivateKey wif bs w = (w', Ok address) ->
  LookupAccountByAddress w' address = Ok (Name w')
  /\ Name w' = Name (fst (ImportWIFPrivateKey wif bs w))
  /\ addressAccountMap w' !! address = Some (Name w').
Proof.
  run_method.
  destruct (DecodePrivateKey wif) as [[[privkey net] compressed]|e]; [|discriminate].
  destruct (negb (net =? Net w)); [discriminate|].
  destruct (Wallet_ImportPrivateKey (Wallet (acct w)) privkey compressed bs)
    as [wl [a|e]]; [|discriminate].
  simpl.
  destruct (disk w) as [|[e|] rest]; simpl; try discriminate;
    intros [= <- <-]; unfold LookupAccountByAddress, Name; simpl;
    rewrite lookup_insert_eq; repeat split; reflexivity.
Qed.

(** C6.  After [NewAddress()] or the private-key import ([ImportWIFPrivateKey],
    and [ImportPrivKey], which calls it) has returned successfully,
    [LookupAccountByAddress] on the returned address succeeds and yields the
    account's name, [a.Name()]. *)
Theorem registry_knows_returned_address (w w' : World W) (address : string) :
  (exists addr, NewAddress w = (w', Ok addr) /\ address = Address.EncodeAddress addr)
  \/ (exists wif bs, ImportWIFPrivateKey wif bs w = (w', Ok address))
  \/ (exists wif rescan w1,
        ImportWIFPrivateKey wif zero_BlockStamp w = (w1, Ok address)
        /\ ImportPrivKey wif rescan w = (w', None)) ->
  LookupAccountByAddress w' address = Ok (Name w').
Proof.
  intros [(addr & Hnew & ->) | [(wif & bs & Himp) | (wif & rescan & w1 & Himp & Hpriv)]].
  - apply (NewAddress_registers w), Hnew.
  - apply (ImportWIFPrivateKey_registers w w' wif bs), Himp.
  - destruct (ImportWIFPrivateKey_registers _ _ _ _ _ Himp) as (_ & _ & Hreg).
    revert Hpriv. unfold ImportPrivKey, bind. cbv zeta. rewrite Himp.
    unfold LookupAccountByAddress, Name in *.
    destruct rescan; run_method; simpl.
    + destruct (disk w1) as [|[e|] rest]; simpl; intros [= <-]; simpl;
        rewrite Hreg; reflexivity.
    + intros [= <-]. rewrite Hreg. reflexivity.
Qed.

End Registry.

Section Persistence.
Context {W : Type} `{!Collaborators W}.

(** C3 (as amended).  When the disk flush of an operation fails, the
    in-memory mutation stays and the dirty flag stays set.  [NewAddress]
    and [Rollback] only log the failure and go on as after a flush that
    worked: [NewAddress] registers the new address and returns it.
    [ImportWIFPrivateKey] logs the failure and returns the error
    "import failed: cannot write wallet": the key stays in the in-memory
    wallet, and the address is not registered. *)
Theorem flush_failure (w : World W) (e : error) (rest : list (option error)) :
  disk w = Some e :: rest ->
  (forall bs wl addr,
     curBlock w = (bs, None) ->
     Wallet_NextChainedAddress (Wallet (acct w)) bs = (wl, Ok addr) ->
     snd (NewAddress w) = Ok addr
     /\ acct (fst (NewAddress w)) = set_dirty true (set_Wallet wl (acct w))
     /\ dirty (acct (fst (NewAddress w))) = true
     /\ addressAccountMap (fst (NewAddress w))
        = <[Address.EncodeAddress addr := Wallet_Name wl]> (addressAccountMap w)
     /\ EvLogError "cannot sync dirty wallet" (Some e) ∈ trace (fst (NewAddress w)))
  /\ (forall wif bs privkey compressed wl addr,
        DecodePrivateKey wif = Ok (privkey, Net w, compressed) ->
        Wallet_ImportPrivateKey (Wallet (acct w)) privkey compressed bs = (wl, Ok addr) ->
        ImportWIFPrivateKey wif bs w
        = (set_trace (trace w ++ [EvWallet (CallImportPrivateKey privkey compressed bs);
                                  EvLogError "cannot write dirty wallet" (Some e)])
             (set_disk rest (set_acct (set_dirty true (set_Wallet wl (acct w))) w)),
           Err (ErrImportFailed e))
        /\ (bs = zero_BlockStamp ->
            forall rescan,
              ImportPrivKey wif rescan w
              = (fst (ImportWIFPrivateKey wif bs w), Some (ErrImportFailed e))))
  /\ (forall height hash,
        Rollback height hash w
        = (set_trace (trace w ++ [EvLogError "cannot sync dirty wallet" (Some e)])
             (set_disk rest
                (set_acct (rollback_TxStore height hash
                             (rollback_UtxoStore height hash (acct w))) w)),
           tt)).
Proof.
  intros Hdisk. split; [|split].
  - intros bs wl addr Hcur Hnext. run_method.
    rewrite Hcur, Hnext. simpl. rewrite Hdisk. simpl.
    destruct (Address.IsPubKeyHash addr); simpl;
      try destruct (nodePeer w); simpl;
      repeat split; try reflexivity;
      rewrite !elem_of_app, !list_elem_of_singleton; tauto.
  - intros wif bs privkey compressed wl addr Hdec Himp.
    assert (Hwif : ImportWIFPrivateKey wif bs w
      = (set_trace (trace w ++ [EvWallet (CallImportPrivateKey privkey compressed bs);
                                EvLogError "cannot write dirty wallet" (Some e)])
           (set_disk rest (set_acct (set_dirty true (set_Wallet wl (acct w))) w)),
         Err (ErrImportFailed e))).
    { run_method. rewrite Hdec. rewrite Z.eqb_refl. simpl.
      rewrite Himp. simpl. rewrite Hdisk. simpl.
      unfold set_trace, set_disk, set_acct. simpl. rewrite <- app_assoc. reflexivity. }
    split; [exact Hwif|].
    intros -> rescan. unfold ImportPrivKey, bind. cbv zeta.
    rewrite Hwif. reflexivity.
  - intros height hash. run_method. simpl. rewrite Hdisk. reflexivity.
Qed.

(** [ImportPrivKey] drops the result of the flush that follows the rescan:
    when the import itself went through, it returns nil whatever that second
    flush answers. *)
Lemma ImportPrivKey_ignores_second_flush (w w1 : World W) (wif address : string) :
  ImportWIFPrivateKey wif zero_BlockStamp w = (w1, Ok address) ->
  snd (ImportPrivKey wif true w) = None
  /\ acct (fst (ImportPrivKey wif true w))
     = acct (fst (writeDirtyToDisk w1)).
Proof.
  intros Himp. unfold ImportPrivKey, bind. cbv zeta. rewrite Himp.
  unfold Rescan, emit, ret. simpl.
  unfold writeDirtyToDisk. simpl.
  destruct (disk w1) as [|[e|] rest]; split; reflexivity.
Qed.

(** C8 (as amended).  [Rollback] hands the account over to the disk flush
    with each ledger's dirty flag true iff it was true before the call or
    that ledger's rollback reported a mutation; up to there no flag that was
    set is cleared.  The flush that ends the call leaves the flags so when it
    fails and clears them when it succeeds. *)
Theorem Rollback_dirty_flags (w : World W) (height : Z) (hash : ShaHash) :
  let a := acct w in
  let a' := rollback_TxStore height hash (rollback_UtxoStore height hash a) in
  UtxoStore_dirty a'
  = UtxoStore_dirty a || snd (UtxoStore_Rollback (UtxoStore_s a) height hash)
  /\ TxStore_dirty a'
     = TxStore_dirty a || snd (TxStore_Rollback (TxStore_s a) height hash)
  /\ Rollback height hash w
     = (let '(w1, err) := writeDirtyToDisk (set_acct a' w) in
        match err with
        | Some e => emit (EvLogError "cannot sync dirty wallet" (Some e)) w1
        | None => (w1, tt)
        end)
  /\ match disk w with
     | Some _ :: _ => acct (fst (Rollback height hash w)) = a'
     | _ => UtxoStore_dirty (acct (fst (Rollback height hash w))) = false
            /\ TxStore_dirty (acct (fst (Rollback height hash w))) = false
     end.
Proof.
  intros a a'. split; [|split; [|split]].
  - subst a'. unfold rollback_TxStore, rollback_UtxoStore.
    destruct (UtxoStore_dirty a) eqn:Hu.
    + destruct (TxStore_dirty a); [exact Hu|].
      destruct (TxStore_Rollback _ _ _); simpl. exact Hu.
    + destruct (UtxoStore_Rollback (UtxoStore_s a) height hash) as [s m]. simpl.
      destruct (TxStore_dirty _); [reflexivity|].
      destruct (TxStore_Rollback _ _ _); reflexivity.
  - subst a'. set (a1 := rollback_UtxoStore height hash a).
    assert (Hsame : TxStore_dirty a1 = TxStore_dirty a)
      by (subst a1; unfold rollback_UtxoStore; destruct (UtxoStore_dirty a); [reflexivity|];
          destruct (UtxoStore_Rollback _ _ _); reflexivity).
    assert (Hstore : TxStore_s a1 = TxStore_s a)
      by (subst a1; unfold rollback_UtxoStore; destruct (UtxoStore_dirty a); [reflexivity|];
          destruct (UtxoStore_Rollback _ _ _); reflexivity).
    rewrite <- Hsame, <- Hstore. unfold rollback_TxStore.
    destruct (TxStore_dirty a1) eqn:Ht; [exact Ht|].
    destruct (TxStore_Rollback (TxStore_s a1) height hash). reflexivity.
  - run_method. simpl. fold a. fold a'.
    destruct (disk w) as [|[e|] rest]; reflexivity.
  - run_method. simpl. fold a. fold a'.
    destruct (disk w) as [|[e|] rest]; simpl; try split; reflexivity.
Qed.

End Persistence.

(** ** The properties on concrete worlds *)

(** C1, the claim as written fails: with the best height at the top of
    int32 and one entry of amount 1 at height 0, the entry passes the filter
    read over the integers ([H - height + 1 = 2^31 >= 1]), but the code
    computes [H - height + 1] in int32, gets [-2^31], and leaves it out. *)
Lemma CalculateBalance_int32_overflow :
  let u := Utxo.mk [] 0 [] 1 0 in
  let w : World unit :=
    mkWorld (mkAccount tt "" false false false [u] false [])
      ∅ (BlockStamp.mk 2147483647 [], None) [] None [] in
  passes_filter 2147483647 1 u = true
  /\ filtered_sum 2147483647 1 (UtxoStore_s (acct w)) = 1
  /\ CalculateBalance w 1 = bitcoin_of_satoshi 0
  /\ CalculateBalance w 1
     <> bitcoin_of_satoshi (filtered_sum 2147483647 1 (UtxoStore_s (acct w)) mod 2 ^ 64).
Proof.
  cbv zeta. split; [reflexivity|]. split; [reflexivity|]. split; [reflexivity|].
  vm_compute. discriminate.
Qed.

(** The sum is taken in uint64: two entries of [2^63] satoshi add up to 0. *)
Example CalculateBalance_uint64_wraps :
  let w : World unit :=
    mkWorld (mkAccount tt "" false false false
               [Utxo.mk [] 0 [] (2 ^ 63) 5; Utxo.mk [] 1 [] (2 ^ 63) 5] false [])
      ∅ (BlockStamp.mk 10 [], None) [] None [] in
  CalculateBalance w 0 = float64_zero.
Proof. reflexivity. Qed.

(** An entry at the best height has one confirmation: it counts for
    [confirms = 1] and not for [confirms = 2]; an unconfirmed entry counts
    only for [confirms = 0]. *)
Example CalculateBalance_boundary :
  CalculateBalance Sample.world0 0 = bitcoin_of_satoshi 80
  /\ CalculateBalance Sample.world0 1 = bitcoin_of_satoshi 75
  /\ CalculateBalance Sample.world0 2 = bitcoin_of_satoshi 50
  /\ CalculateBalance Sample.world0 11 = bitcoin_of_satoshi 50
  /\ CalculateBalance Sample.world0 12 = bitcoin_of_satoshi 0.
Proof. repeat split; reflexivity. Qed.

(** C1 on the sample world: best height 100, entries at heights 90, 100 and
    -1, one confirmation asked for. *)
Lemma CalculateBalance_sums_passing_witness :
  CalculateBalance Sample.world0 1
  = bitcoin_of_satoshi (filtered_sum 100 1 (UtxoStore_s Sample.account0) mod 2 ^ 64).
Proof.
  apply (CalculateBalance_sums_passing Sample.world0 1).
  - reflexivity.
  - discriminate.
  - lia.
  - simpl.
    repeat (constructor; [apply confirmations_fit_in_practice; simpl; lia|]).
    constructor.
Defined.

(** C2, the claim as written fails: on the store of three records,
    [ListTransactions(1, 1)] returns the row of the most recent record (index
    2), not that of the record one step back from the end (index 1), which
    is what skipping [from = 1] records from the end would give. *)
Lemma ListTransactions_from_is_no_offset :
  ListTransactions Sample.world0 1 1
  = Returns (Ok (rows_in Sample.world0 (Sample.recv Byte.x08 20 100)))
  /\ ListRecent_records (TxStore_s (acct Sample.world0)) 1 1 = [Sample.send2 95]
  /\ ListTransactions Sample.world0 1 1
     <> Returns (Ok (flat_map (rows_in Sample.world0)
                       (ListRecent_records (TxStore_s (acct Sample.world0)) 1 1))).
Proof.
  split; [reflexivity|]. split; [reflexivity|].
  vm_compute. discriminate.
Qed.

(** On a store of five records, [ListTransactions(0, 3)] returns the rows
    of the three most recently appended records, most recent first. *)
Lemma ListTransactions_rows_witness :
  ListTransactions Sample.world5 0 3
  = Returns (Ok (rows_in Sample.world5 Sample.r4
                 ++ rows_in Sample.world5 Sample.r3
                 ++ rows_in Sample.world5 Sample.r2)).
Proof.
  destruct (ListTransactions_rows Sample.world5 0 3) as [Hrows _].
  - reflexivity.
  - unfold GoInt.in_signed. simpl. lia.
  - simpl. lia.
  - exact Hrows.
Defined.

(** With [from = -1] and [count = 4] on a store of three records the loop
    goes on to index -1, and indexing the store there panics. *)
Lemma ListTransactions_negative_from_panics :
  length (TxStore_s (acct Sample.world0)) = 3%nat
  /\ ListTransactions_visits (TxStore_s (acct Sample.world0)) (-1) 4 = Panics
  /\ ListTransactions Sample.world0 (-1) 4 = Panics.
Proof. repeat split; reflexivity. Qed.

(** When [n - count] does not fit in an int the bound is not
    [max(from, n - count)] either: with the least int as [count] the
    difference wraps around and every record is visited. *)
Example ListTransactions_count_wraps :
  ListTransactions_visits (TxStore_s (acct Sample.world0)) 0 (- 2 ^ 63)
  = Returns [2; 1; 0].
Proof. reflexivity. Qed.

(** On the sample store of three records, with [from = 1] and
    [count = 5], indices 2 and 1 are visited. *)
Lemma ListTransactions_in_bounds_witness :
  ListTransactions_visits (TxStore_s (acct Sample.world0)) 1 5 = Returns [2; 1]
  /\ exists r, ListTransactions Sample.world0 1 5 = Returns r.
Proof.
  destruct (ListTransactions_in_bounds Sample.world0 1 5) as (Hvisits & _ & _ & Hret & _).
  - unfold GoInt.in_signed. simpl. lia.
  - left. lia.
  - split; [exact Hvisits | exact Hret].
Defined.

(** C10 on an account with no transactions: [ListTransactions(-1, 1)]
    panics, and [ListAllTransactions()] returns no rows. *)
Lemma ListTransactions_indexes_at_minus_1_witness :
  ListTransactions
    (Sample.with_account (set_TxStore false [] Sample.account0) Sample.world0) (-1) 1
  = Panics
  /\ ListAllTransactions
       (Sample.with_account (set_TxStore false [] Sample.account0) Sample.world0)
     = Returns (Ok []).
Proof.
  apply (ListTransactions_indexes_at_minus_1
           (Sample.with_account (set_TxStore false [] Sample.account0) Sample.world0)
           (-1) 1).
  - reflexivity.
  - unfold GoInt.in_signed. simpl. lia.
  - lia.
  - simpl. lia.
Defined.

(** C4, the claim as written fails: when the provider answers the Unknown
    height without an error, the history queries do not fail; they return
    rows. *)
Lemma history_ignores_unknown_height :
  BlockStamp.Height (fst (curBlock Sample.world_unknown)) = BlockHeightUnknown
  /\ snd (curBlock Sample.world_unknown) = None
  /\ CalculateBalance Sample.world_unknown 0 = float64_zero
  /\ ListAllTransactions Sample.world_unknown
     = Returns (Ok (flat_map (rows_in Sample.world_unknown)
                      (rev (TxStore_s (acct Sample.world_unknown)))))
  /\ ListTransactions Sample.world_unknown 0 1
     = Returns (Ok (rows_in Sample.world_unknown (Sample.recv Byte.x08 20 100)))
  /\ ListAddressTransactions Sample.world_unknown
       {[String.string_of_list_byte (Sample.h20 Byte.x09)]}
     = Ok (rows_in Sample.world_unknown (Sample.recv Byte.x09 10 90)).
Proof. repeat split; reflexivity. Qed.

(** C4 on the world whose provider answers the Unknown height without an
    error, and on the world whose provider fails. *)
Lemma provider_failure_policy_witness :
  CalculateBalance Sample.world_unknown 0 = float64_zero
  /\ ListTransactions Sample.world_unknown 0 1
     = Returns (Ok (rows_in Sample.world_unknown (Sample.recv Byte.x08 20 100)))
  /\ ListAllTransactions Sample.world_unknown
     = Returns (Ok (flat_map (rows_in Sample.world_unknown)
                      (rev (TxStore_s Sample.account0))))
  /\ ListTransactions
       (Sample.with_curBlock (Sample.best (-1), Some Sample.disk_full) Sample.world0) 0 1
     = Returns (Err Sample.disk_full).
Proof.
  destruct (provider_failure_policy Sample.world_unknown) as (Hbal & _ & _ & Hrows).
  { left. reflexivity. }
  destruct Hrows as (_ & Hlist & _ & Hall); [reflexivity|].
  destruct (provider_failure_policy
              (Sample.with_curBlock (Sample.best (-1), Some Sample.disk_full) Sample.world0))
    as (_ & _ & Hfails & _).
  { right. eexists. reflexivity. }
  destruct (Hfails Sample.disk_full) as (Herr & _); [reflexivity|].
  split; [apply Hbal|]. split; [|split; [exact Hall | apply Herr]].
  rewrite Hlist.
  - reflexivity.
  - unfold GoInt.in_signed. simpl. lia.
  - simpl. lia.
Defined.

(** C3, the claim as written fails: the wallet takes the key and the dirty
    flag is set, the flush fails, and [ImportWIFPrivateKey] (and with it
    [ImportPrivKey]) reports an error to its caller instead of success; the
    address is not registered either. *)
Lemma ImportWIFPrivateKey_reports_flush_failure :
  let done := ImportWIFPrivateKey "5abc" zero_BlockStamp Sample.world_disk_full in
  Sample.imported (Wallet (acct (fst done))) = [(String.list_byte_of_string "abc", false)]
  /\ dirty (acct (fst done)) = true
  /\ snd done = Err (ErrImportFailed Sample.disk_full)
  /\ snd (ImportPrivKey "5abc" false Sample.world_disk_full)
     = Some (ErrImportFailed Sample.disk_full)
  /\ LookupAccountByAddress (fst done) "addr-of-abc" = Err ErrNotFound.
Proof. cbv zeta. repeat split; reflexivity. Qed.

(** C3 on the world whose disk refuses the next write. *)
Lemma flush_failure_witness :
  snd (NewAddress Sample.world_disk_full) = Ok Sample.addr2
  /\ dirty (acct (fst (NewAddress Sample.world_disk_full))) = true
  /\ snd (ImportWIFPrivateKey "5abc" zero_BlockStamp Sample.world_disk_full)
     = Err (ErrImportFailed Sample.disk_full).
Proof.
  destruct (flush_failure Sample.world_disk_full Sample.disk_full [] eq_refl)
    as (Hnew & Himp & _).
  destruct (Hnew (Sample.best 100) (fst (Sample.nextChainedAddress Sample.wallet0 (Sample.best 100)))
              Sample.addr2 eq_refl eq_refl) as (Hret & _ & Hdirty & _).
  destruct (Himp "5abc" zero_BlockStamp (String.list_byte_of_string "abc") false
              (fst (Sample.importPrivateKey Sample.wallet0 (String.list_byte_of_string "abc")
                      false zero_BlockStamp))
              "addr-of-abc" eq_refl eq_refl) as (Hwif & _).
  split; [exact Hret|]. split; [exact Hdirty|].
  rewrite Hwif. reflexivity.
Defined.

(** C5 on the sample world: a test-network key offered to a main-network
    account. *)
Lemma import_wrong_network_witness :
  ImportWIFPrivateKey "9abc" zero_BlockStamp Sample.world0
  = (Sample.world0, Err ErrWrongNetwork)
  /\ ImportPrivKey "9abc" true Sample.world0 = (Sample.world0, Some ErrWrongNetwork).
Proof.
  apply (import_wrong_network Sample.world0 "9abc" zero_BlockStamp true
           (String.list_byte_of_string "abc") TestNet3 false).
  - reflexivity.
  - discriminate.
Defined.

(** C6 on the sample world, for [NewAddress] and for [ImportPrivKey]. *)
Lemma registry_knows_returned_address_witness :
  LookupAccountByAddress (fst (NewAddress Sample.world0)) "1second" = Ok "savings"
  /\ LookupAccountByAddress (fst (ImportPrivKey "Kxyz" true Sample.world0)) "addr-of-xyz"
     = Ok "savings".
Proof.
  split.
  - change (Ok "savings") with (Ok (Name (fst (NewAddress Sample.world0)))).
    apply (registry_knows_returned_address Sample.world0
             (fst (NewAddress Sample.world0)) "1second").
    left. exists Sample.addr2. split; reflexivity.
  - change (Ok "savings")
      with (Ok (Name (fst (ImportPrivKey "Kxyz" true Sample.world0)))).
    apply (registry_knows_returned_address Sample.world0
             (fst (ImportPrivKey "Kxyz" true Sample.world0)) "addr-of-xyz").
    right. right.
    exists "Kxyz", true, (fst (ImportWIFPrivateKey "Kxyz" zero_BlockStamp Sample.world0)).
    split; reflexivity.
Defined.

(** C8, the claim as written fails: a rollback to height 95 drops entries
    of both stores, so both rollbacks report a mutation; the flush that ends
    [Rollback] succeeds, and after the call both dirty flags are false. *)
Lemma Rollback_flush_clears_flags :
  let a := acct Sample.world0 in
  snd (UtxoStore_Rollback (UtxoStore_s a) 95 []) = true
  /\ snd (TxStore_Rollback (TxStore_s a) 95 []) = true
  /\ UtxoStore_dirty (acct (fst (Rollback 95 [] Sample.world0))) = false
  /\ TxStore_dirty (acct (fst (Rollback 95 [] Sample.world0))) = false.
Proof. cbv zeta. repeat split; reflexivity. Qed.

(** A flag that is already set keeps its store from being rolled back:
    Go's [||] does not evaluate the call. *)
Example Rollback_skips_dirty_store :
  let w := Sample.with_account
             (set_UtxoStore true (UtxoStore_s Sample.account0) Sample.account0)
             Sample.world_disk_full in
  UtxoStore_s (acct (fst (Rollback 95 [] w))) = UtxoStore_s Sample.account0
  /\ fst (UtxoStore_Rollback (UtxoStore_s Sample.account0) 95 [])
     = [Sample.utxo Byte.x01 50 90; Sample.utxo Byte.x03 5 (-1)].
Proof. cbv zeta. split; reflexivity. Qed.

(** C9 on a concrete world: one call of [Account.Unlock] with the right
    passphrase reaches the wallet's [Unlock] twice. *)
Example Unlock_twice_on_sample :
  trace (fst (Unlock [Byte.x70; Byte.x77] 0 Sample.world0))
  = [EvWallet (CallUnlock [Byte.x70; Byte.x77]);
     EvNotifyWalletLockStateChange "savings" false;
     EvWallet (CallUnlock [Byte.x70; Byte.x77])]
  /\ unlock_calls (trace (fst (Unlock [Byte.x70; Byte.x77] 0 Sample.world0))) = 2%nat
  /\ unlock_calls (trace (fst (Unlock [Byte.x00] 0 Sample.world0))) = 2%nat.
Proof. repeat split; reflexivity. Qed.

(** C7 on the sample world: the last chained address has received nothing
    and is returned as it is; after a payment to it, the wallet issues its
    next address, which is returned. *)
Lemma CurrentAddress_advances_when_used_witness :
  CurrentAddress Sample.world0 = (Sample.world0, Ok Sample.addr1)
  /\ snd (CurrentAddress (append_tx (Sample.recv Byte.x01 7 100) Sample.world0))
     = Ok Sample.addr2
  /\ Sample.issued
       (Wallet (acct (fst (CurrentAddress
                             (append_tx (Sample.recv Byte.x01 7 100) Sample.world0)))))
     = [Sample.addr1; Sample.addr2].
Proof.
  destruct (CurrentAddress_advances_when_used Sample.world0) as (Hunused & _ & _).
  destruct (CurrentAddress_advances_when_used
              (append_tx (Sample.recv Byte.x01 7 100) Sample.world0))
    as (_ & Hused & _).
  destruct Hused as (_ & _ & _ & Hissue); [reflexivity|].
  destruct (Hissue (Sample.best 100)
              (fst (Sample.nextChainedAddress Sample.wallet0 (Sample.best 100)))
              Sample.addr2) as (Hret & Hwallet & _); [reflexivity|reflexivity|].
  split; [apply Hunused; reflexivity|].
  split; [exact Hret|].
  rewrite Hwallet. reflexivity.
Defined.

(** * Further properties of account.go *)

(** ** The address registry *)

Section RegistryRoundTrip.
Context {W : Type} `{!Collaborators W}.


(** X2.  [Account.Rollback] leaves a store whose dirty flag is already set
    as it is -- the store's own [Rollback] is not called -- and otherwise
    makes it what the store's [Rollback] leaves; it changes neither the
    wallet nor the account's name nor the registry. *)
Theorem Rollback_skips_dirty_stores (w : World W) (height : Z) (hash : ShaHash) :
  let a := acct w in
  let a' := acct (fst (Rollback height hash w)) in
  UtxoStore_s a'
  = (if UtxoStore_dirty a then UtxoStore_s a
     else fst (UtxoStore_Rollback (UtxoStore_s a) height hash))
  /\ TxStore_s a'
     = (if TxStore_dirty a then TxStore_s a
        else fst (TxStore_Rollback (TxStore_s a) height hash))
  /\ Wallet a' = Wallet a
  /\ name a' = name a
  /\ addressAccountMap (fst (Rollback height hash w)) = addressAccountMap w.
Proof.
  cbv zeta. run_method. unfold rollback_TxStore, rollback_UtxoStore. simpl.
  destruct (UtxoStore_dirty (acct w)) eqn:Hu; simpl.
  - destruct (TxStore_dirty (acct w)) eqn:Ht; simpl.
    + destruct (disk w) as [|[e|] rest]; simpl; rewrite ?Hu, ?Ht; repeat split; reflexivity.
    + destruct (TxStore_Rollback (TxStore_s (acct w)) height hash) as [s m]; simpl.
      destruct (disk w) as [|[e|] rest]; simpl; repeat split; reflexivity.
  - destruct (UtxoStore_Rollback (UtxoStore_s (acct w)) height hash) as [s m]; simpl.
    destruct (TxStore_dirty (acct w)) eqn:Ht; simpl.
    + destruct (disk w) as [|[e|] rest]; simpl; repeat split; reflexivity.
    + destruct (TxStore_Rollback (TxStore_s (acct w)) height hash) as [s' m']; simpl.
      destruct (disk w) as [|[e|] rest]; simpl; repeat split; reflexivity.
Qed.

(** X3.  [AddressUsed] after one more record has been appended to the
    transaction store: it holds iff it held before or the new record is a
    receive record for the address's hash.  A send record never changes
    it, and on an empty store it is false. *)
Theorem AddressUsed_after_append (w : World W) (e : TxRecord) (addr : Address.t) :
  AddressUsed (append_tx e w) addr
  = AddressUsed w addr
    || match e with
       | IsRecvTx rtx => bytes_Equal (RecvTx.ReceiverHash rtx) (Address.ScriptAddress addr)
       | IsSendTx _ => false
       end
  /\ (TxStore_s (acct w) = [] -> AddressUsed w addr = false).
Proof.
  unfold AddressUsed, append_tx. simpl. split.
  - rewrite existsb_app. simpl. rewrite orb_false_r. reflexivity.
  - intros ->. reflexivity.
Qed.

(** X4.  Once a receive record for the hash of the wallet's last chained
    address is in the transaction store, [CurrentAddress()] hands out a new
    address: when the provider and the wallet's [NextChainedAddress] work, it
    returns the address the wallet issues next, and that address is
    registered for the account. *)
Theorem CurrentAddress_after_receive (w : World W) (rtx : RecvTx.t)
  (bs : BlockStamp.t) (wl : W) (next : Address.t) :
  IsRecvTx rtx ∈ TxStore_s (acct w) ->
  RecvTx.ReceiverHash rtx
  = Address.ScriptAddress (Wallet_LastChainedAddress (Wallet (acct w))) ->
  curBlock w = (bs, None) ->
  Wallet_NextChainedAddress (Wallet (acct w)) bs = (wl, Ok next) ->
  snd (CurrentAddress w) = Ok next
  /\ Wallet (acct (fst (CurrentAddress w))) = wl
  /\ LookupAccountByAddress (fst (CurrentAddress w)) (Address.EncodeAddress next)
     = Ok (Wallet_Name wl).
Proof.
  intros Hin Hhash Hcur Hnext.
  assert (Hused : AddressUsed w (Wallet_LastChainedAddress (Wallet (acct w))) = true).
  { apply AddressUsed_iff. exists rtx. split; assumption. }
  unfold CurrentAddress, bind, read, ret. rewrite Hused.
  run_method. rewrite Hcur, Hnext. simpl.
  destruct (disk w) as [|[e|] rest]; simpl;
    destruct (Address.IsPubKeyHash next); simpl;
    try destruct (nodePeer w); simpl;
    unfold LookupAccountByAddress; simpl; rewrite lookup_insert_eq;
    repeat split; reflexivity.
Qed.

End RegistryRoundTrip.

(** ** Balances *)

Lemma filter_all_pass {A : Type} (p : A -> bool) (l : list A) :
  Forall (fun x => p x = true) l -> filter (fun x => p x = true) l = l.
Proof.
  induction 1 as [|x l Hx _ IH]; [reflexivity|].
  rewrite filter_cons, decide_True by exact Hx. rewrite IH. reflexivity.
Qed.

(** Leaving out entries on which a loop body does nothing does not change
    what the loop computes. *)
Lemma fold_left_skip {A B : Type} (f : A -> B -> A) (keep : B -> bool) (l : list B) (a : A) :
  (forall a x, keep x = false -> f a x = a) ->
  fold_left f (filter (fun x => keep x = true) l) a = fold_left f l a.
Proof.
  intros Hskip. revert a. induction l as [|x l IH]; intros a; [reflexivity|].
  rewrite filter_cons. destruct (keep x) eqn:Hk.
  - rewrite decide_True by reflexivity. simpl. apply IH.
  - rewrite decide_False by discriminate. simpl. rewrite Hskip by exact Hk. apply IH.
Qed.

Lemma sum_Permutation (l l' : list Z) :
  l ≡ₚ l' -> foldr Z.add 0 l = foldr Z.add 0 l'.
Proof.
  induction 1 as [|x l l' _ IH|x y l|l l' l'' _ IH1 _ IH2]; simpl.
  - reflexivity.
  - rewrite IH. reflexivity.
  - lia.
  - congruence.
Qed.

Section MoreBalances.
Context {W : Type}.

(** X5.  With [confirms == 0] and a valid answer of the provider,
    [CalculateBalance] is the conversion of the sum, modulo [2^64], of the
    amounts of all entries of the store, whatever their heights and whatever
    the best height. *)
Theorem CalculateBalance_zero_confirmations (w : World W) :
  snd (curBlock w) = None ->
  BlockStamp.Height (fst (curBlock w)) <> BlockHeightUnknown ->
  CalculateBalance w 0
  = bitcoin_of_satoshi (foldr Z.add 0 (Utxo.Amt <$> UtxoStore_s (acct w)) mod 2 ^ 64).
Proof.
  intros Herr Hknown. rewrite CalculateBalance_sums_counted by assumption.
  rewrite filter_all_pass; [reflexivity|].
  apply Forall_forall. intros u _. reflexivity.
Qed.

(** X6.  For [confirms != 0] the entries that are not yet in a block (height
    -1) never count: the balance is that of the store without them.  This
    holds for every best height and every [confirms], negative ones and
    heights at the ends of int32 included. *)
Theorem unconfirmed_never_count (w : World W) (confirms : Z) :
  confirms <> 0 ->
  CalculateBalance w confirms
  = CalculateBalance
      (with_utxos (filter (fun u => negb (Utxo.Height u =? -1) = true)
                     (UtxoStore_s (acct w))) w)
      confirms.
Proof.
  intros Hc. unfold CalculateBalance, with_utxos. simpl.
  destruct (curBlock w) as [bs err].
  destruct ((BlockStamp.Height bs =? BlockHeightUnknown) || bool_decide (is_Some err));
    [reflexivity|].
  f_equal. symmetry. apply fold_left_skip.
  intros bal u Hu. unfold counts_towards.
  apply Z.eqb_neq in Hc. rewrite Hc, Hu. reflexivity.
Qed.

(** X7.  The balance does not depend on the order of the entries in the
    store: two stores that hold the same entries give the same
    [CalculateBalance] and the same [CalculateAddressBalance]. *)
Theorem balance_order_independent (w : World W) (s s' : list Utxo.t)
  (addr : Address.t) (confirms : Z) :
  s ≡ₚ s' ->
  CalculateBalance (with_utxos s w) confirms = CalculateBalance (with_utxos s' w) confirms
  /\ CalculateAddressBalance (with_utxos s w) addr confirms
     = CalculateAddressBalance (with_utxos s' w) addr confirms.
Proof.
  intros Hperm. unfold CalculateBalance, CalculateAddressBalance, with_utxos. simpl.
  destruct (curBlock w) as [bs err].
  destruct ((BlockStamp.Height bs =? BlockHeightUnknown) || bool_decide (is_Some err));
    [split; reflexivity|].
  assert (Hrange : 0 <= 0 < 2 ^ 64) by (split; [lia | apply Z.pow_pos_nonneg; lia]).
  split; f_equal.
  - rewrite !balance_loop_sum by exact Hrange. f_equal. f_equal.
    apply sum_Permutation. rewrite Hperm. reflexivity.
  - rewrite (fold_left_agree _
               (fun bal u =>
                  if counts_towards confirms bs u
                     && bytes_Equal (Address.ScriptAddress addr) (Utxo.AddrHash u)
                  then GoInt.uint64_add bal (Utxo.Amt u) else bal) s)
      by (apply Forall_forall; intros u _ bal;
          destruct (counts_towards confirms bs u); reflexivity).
    rewrite (fold_left_agree _
               (fun bal u =>
                  if counts_towards confirms bs u
                     && bytes_Equal (Address.ScriptAddress addr) (Utxo.AddrHash u)
                  then GoInt.uint64_add bal (Utxo.Amt u) else bal) s')
      by (apply Forall_forall; intros u _ bal;
          destruct (counts_towards confirms bs u); reflexivity).
    rewrite !(balance_loop_sum
                (fun u => counts_towards confirms bs u
                          && bytes_Equal (Address.ScriptAddress addr) (Utxo.AddrHash u)))
      by exact Hrange.
    f_equal. f_equal. apply sum_Permutation. rewrite Hperm. reflexivity.
Qed.

(** X8.  An address to which no entry of the store pays has the balance 0,
    for every [confirms]. *)
Theorem CalculateAddressBalance_no_entry (w : World W) (addr : Address.t) (confirms : Z) :
  Forall (fun u => Utxo.AddrHash u <> Address.ScriptAddress addr) (UtxoStore_s (acct w)) ->
  CalculateAddressBalance w addr confirms = float64_zero.
Proof.
  intros Hnone. unfold CalculateAddressBalance.
  destruct (curBlock w) as [bs err].
  destruct ((BlockStamp.Height bs =? BlockHeightUnknown) || bool_decide (is_Some err));
    [reflexivity|].
  rewrite (fold_left_agree _ (fun bal _ => bal)).
  - assert (Hconst : forall (l : list Utxo.t) (b : Z), fold_left (fun bal _ => bal) l b = b)
      by (induction l; intros; simpl; auto).
    rewrite Hconst. reflexivity.
  - eapply Forall_impl; [exact Hnone|]. simpl. intros u Hu bal.
    unfold bytes_Equal. rewrite bool_decide_eq_false_2 by congruence.
    destruct (counts_towards confirms bs u); reflexivity.
Qed.

End MoreBalances.

(** X9.  An entry that counts towards the balance for [c2] confirmations
    counts for every smaller number of confirmations from 0 on, so asking for
    more confirmations never lets more entries through.  This holds for all
    heights. *)
Theorem enough_for_fewer_confirmations (c1 c2 : Z) (bs : BlockStamp.t) (u : Utxo.t) :
  0 <= c1 <= c2 ->
  counts_towards c2 bs u = true ->
  counts_towards c1 bs u = true.
Proof.
  intros Hc. unfold counts_towards.
  rewrite !orb_true_iff, !andb_true_iff, !Z.eqb_eq, !Z.leb_le.
  intros [H2 | [Hh Hle]]; [left; lia|].
  right. split; [exact Hh | lia].
Qed.

(** ** More on the history queries *)

Section MoreHistory.
Context {W : Type} `{!Collaborators W}.

(** X10.  With [count <= 0], [ListTransactions] returns no rows and does
    not panic, for every [from], negative ones included. *)
Theorem ListTransactions_nonpositive_count (w : World W) (from count : Z) :
  let n := Z.of_nat (length (TxStore_s (acct w))) in
  snd (curBlock w) = None ->
  GoInt.in_signed 64 (n - count) ->
  count <= 0 ->
  ListTransactions w from count = Returns (Ok []).
Proof.
  intros n Herr Hfit Hcount.
  rewrite ListTransactions_from_bound by (assumption || (fold n; lia)).
  fold n. rewrite drop_ge by lia. reflexivity.
Qed.

(** X11.  [ListTransactions(0, count)] with [count] at least the length of
    the store is [ListAllTransactions()]: the same rows, or the same
    error of the provider. *)
Theorem ListTransactions_whole_store (w : World W) (count : Z) :
  let n := Z.of_nat (length (TxStore_s (acct w))) in
  GoInt.in_signed 64 (n - count) ->
  n <= count ->
  ListTransactions w 0 count = ListAllTransactions w.
Proof.
  intros n Hfit Hcount. rewrite ListAllTransactions_rows.
  destruct (snd (curBlock w)) as [e|] eqn:Herr.
  - unfold ListTransactions. destruct (curBlock w) as [bs err].
    simpl in Herr. subst err. reflexivity.
  - rewrite ListTransactions_from_bound by (assumption || (fold n; lia)).
    fold n. replace (Z.max 0 (n - count)) with 0 by lia. reflexivity.
Qed.

(** X12.  Asking [ListTransactions(0, _)] for more records only adds rows
    at the end: the rows for [count] are the first rows of the reply for any
    larger [count]. *)
Theorem ListTransactions_larger_count_extends (w : World W) (c c' : Z) :
  let n := Z.of_nat (length (TxStore_s (acct w))) in
  snd (curBlock w) = None ->
  0 <= c <= c' ->
  GoInt.in_signed 64 (n - c) ->
  GoInt.in_signed 64 (n - c') ->
  exists rows older,
    ListTransactions w 0 c = Returns (Ok rows)
    /\ ListTransactions w 0 c' = Returns (Ok (rows ++ older)).
Proof.
  intros n Herr Hc Hfit Hfit'.
  assert (Hrows : forall k, 0 <= k -> GoInt.in_signed 64 (n - k) ->
            ListTransactions w 0 k
            = Returns (Ok (flat_map (rows_in w)
                             (take (Z.to_nat k) (rev (TxStore_s (acct w))))))).
  { intros k Hk Hfk.
    rewrite ListTransactions_from_bound by (assumption || (fold n; lia)).
    rewrite <- ListRecent_records_from_0 by exact Hk.
    unfold ListRecent_records. change (Z.to_nat 0) with 0%nat. rewrite drop_0.
    reflexivity. }
  exists (flat_map (rows_in w) (take (Z.to_nat c) (rev (TxStore_s (acct w))))).
  exists (flat_map (rows_in w)
            (take (Z.to_nat c' - Z.to_nat c)
               (drop (Z.to_nat c) (rev (TxStore_s (acct w)))))).
  split; [apply Hrows; [lia | exact Hfit]|].
  rewrite Hrows by (lia || exact Hfit').
  rewrite <- flat_map_app, take_take_drop.
  replace (Z.to_nat c + (Z.to_nat c' - Z.to_nat c))%nat with (Z.to_nat c') by lia.
  reflexivity.
Qed.

(** X13.  When the provider answers without an error and [n - count] fits
    in an int, [ListTransactions(from, count)] panics on an index out of
    range exactly when [max(from, n - count)] is negative: then the loop,
    which has no test [i >= 0], reaches index -1, also on an empty store. *)
Theorem ListTransactions_panics_iff (w : World W) (from count : Z) :
  let n := Z.of_nat (length (TxStore_s (acct w))) in
  snd (curBlock w) = None ->
  GoInt.in_signed 64 (n - count) ->
  ListTransactions w from count = Panics <-> Z.max from (n - count) < 0.
Proof.
  intros n Herr Hfit. split.
  - intros Hpanic. destruct (Z.lt_ge_cases (Z.max from (n - count)) 0) as [Hlt|Hge];
      [exact Hlt|].
    rewrite ListTransactions_from_bound in Hpanic by assumption. discriminate.
  - intros Hlt. apply ListTransactions_below_0; assumption.
Qed.

(** X14.  [ListAllTransactions] never panics, and the rows of a record
    appended to the store come first in its reply, before the rows it
    returned without that record. *)
Theorem ListAllTransactions_newest_first (w : World W) (e : TxRecord) :
  (exists r, ListAllTransactions w = Returns r)
  /\ ListAllTransactions (append_tx e w)
     = match ListAllTransactions w with
       | Returns (Ok rows) => Returns (Ok (rows_in w e ++ rows))
       | other => other
       end.
Proof.
  rewrite !ListAllTransactions_rows. split; [eexists; reflexivity|].
  unfold append_tx. simpl.
  destruct (snd (curBlock w)); [reflexivity|].
  rewrite rev_app_distr. reflexivity.
Qed.

(** X15.  [ListAddressTransactions(pkHashes)] returns the provider's error,
    or else one row for each receive record of the store whose receiver hash
    is in [pkHashes], and only those, in the order of the store (oldest
    first); send records give no row. *)
Theorem ListAddressTransactions_rows (w : World W) (pkHashes : gset string) :
  let s := TxStore_s (acct w) in
  ListAddressTransactions w pkHashes
  = match snd (curBlock w) with
    | Some e => Err e
    | None =>
        Ok (map (fun rtx => RecvTx_TxInfo rtx (name (acct w))
                              (BlockStamp.Height (fst (curBlock w))) (Net w))
              (received_by pkHashes s))
    end
  /\ (forall rtx, rtx ∈ received_by pkHashes s
        <-> IsRecvTx rtx ∈ s
            /\ String.string_of_list_byte (RecvTx.ReceiverHash rtx) ∈ pkHashes)
  /\ (IsRecvTx <$> received_by pkHashes s) `sublist_of` s.
Proof.
  intros s. split; [|split].
  - unfold ListAddressTransactions. destruct (curBlock w) as [bs [e|]]; simpl; [reflexivity|].
    rewrite ListAddressTransactions_loop. reflexivity.
  - intros rtx. unfold received_by. rewrite list_elem_of_omap. split.
    + intros ([stx|rtx'] & Hin & Hsome); [discriminate|].
      destruct (bool_decide _) eqn:Hdec; [|discriminate].
      injection Hsome as <-. split; [exact Hin|].
      apply bool_decide_eq_true_1 in Hdec. exact Hdec.
    + intros [Hin Hset]. exists (IsRecvTx rtx). split; [exact Hin|].
      rewrite bool_decide_eq_true_2 by exact Hset. reflexivity.
  - unfold received_by. induction s as [|[stx|rtx] s' IH]; simpl.
    + constructor.
    + apply sublist_cons, IH.
    + destruct (bool_decide _); simpl.
      * apply sublist_skip, IH.
      * apply sublist_cons, IH.
Qed.

End MoreHistory.

(** ** More on issuing and importing addresses *)

Section MoreAddresses.
Context {W : Type} `{!Collaborators W}.

(** X16.  When [NewAddress] returns an error, nothing has been registered,
    flushed or requested from the node peer, and the stores and the dirty
    flag are as before; when the error is the provider's, the wallet was not
    called and the world is unchanged. *)
Theorem NewAddress_failure (w : World W) (e : error) :
  let w' := fst (NewAddress w) in
  snd (NewAddress w) = Err e ->
  addressAccountMap w' = addressAccountMap w
  /\ dirty (acct w') = dirty (acct w)
  /\ UtxoStore_s (acct w') = UtxoStore_s (acct w)
  /\ TxStore_s (acct w') = TxStore_s (acct w)
  /\ disk w' = disk w
  /\ List.filter is_NotifyNewTXs (trace w') = List.filter is_NotifyNewTXs (trace w)
  /\ (is_Some (snd (curBlock w)) -> w' = w /\ snd (curBlock w) = Some e).
Proof.
  cbv zeta. run_method.
  destruct w as [a reg [bs [e0|]] d peer t]; simpl.
  - intros [= <-]. repeat split; reflexivity.
  - destruct (Wallet_NextChainedAddress (Wallet a) bs) as [wl [addr|e1]]; simpl.
    + destruct d as [|[ed|] rest]; simpl;
        destruct (Address.IsPubKeyHash addr); simpl;
        try destruct peer; simpl; discriminate.
    + intros [= <-]. rewrite List.filter_app. simpl. rewrite app_nil_r.
      do 6 (split; [reflexivity|]).
      intros [x Hx]. discriminate.
Qed.

(** X17.  When the provider and the wallet work, [NewAddress] returns the
    new address whatever the disk and the node peer answer, and it asks the
    node peer for transaction notifications exactly once, for exactly that
    address, when the address is a pay-to-pubkey-hash address, and not at
    all otherwise. *)
Theorem NewAddress_notification_request (w : World W) (bs : BlockStamp.t) (wl : W)
  (addr : Address.t) :
  curBlock w = (bs, None) ->
  Wallet_NextChainedAddress (Wallet (acct w)) bs = (wl, Ok addr) ->
  snd (NewAddress w) = Ok addr
  /\ List.filter is_NotifyNewTXs (trace (fst (NewAddress w)))
     = List.filter is_NotifyNewTXs (trace w)
       ++ (if Address.IsPubKeyHash addr
           then [EvNotifyNewTXs [Address.EncodeAddress addr]] else []).
Proof.
  intros Hcur Hnext. run_method. rewrite Hcur, Hnext. simpl.
  destruct (disk w) as [|[ed|] rest]; simpl;
    destruct (Address.IsPubKeyHash addr); simpl;
    try destruct (nodePeer w); simpl;
    rewrite ?List.filter_app; simpl; rewrite ?app_nil_r, <- ?app_assoc;
    split; reflexivity.
Qed.

(** X18.  When [ImportWIFPrivateKey] returns an error, no address has been
    registered and the stores are as before; when the error is the
    decoder's, the world is unchanged and the error is the decoder's own. *)
Theorem ImportWIFPrivateKey_failure (w : World W) (wif : string) (bs : BlockStamp.t)
  (e : error) :
  let w' := fst (ImportWIFPrivateKey wif bs w) in
  snd (ImportWIFPrivateKey wif bs w) = Err e ->
  addressAccountMap w' = addressAccountMap w
  /\ UtxoStore_s (acct w') = UtxoStore_s (acct w)
  /\ TxStore_s (acct w') = TxStore_s (acct w)
  /\ (forall e', DecodePrivateKey wif = Err e' -> w' = w /\ e = e').
Proof.
  cbv zeta. run_method.
  destruct (DecodePrivateKey wif) as [[[privkey net] compressed]|e0]; simpl.
  - destruct (negb (net =? Net w)); simpl.
    + intros _. do 3 (split; [reflexivity|]). intros e' [=].
    + destruct (Wallet_ImportPrivateKey (Wallet (acct w)) privkey compressed bs)
        as [wl [a|e1]]; simpl.
      * destruct (disk w) as [|[ed|] rest]; simpl; try discriminate.
        intros _. do 3 (split; [reflexivity|]). intros e' [=].
      * intros _. do 3 (split; [reflexivity|]). intros e' [=].
  - intros [= <-]. do 3 (split; [reflexivity|]).
    intros e' [= <-]. split; reflexivity.
Qed.

(** X19.  [ImportPrivKey] returns the error of [ImportWIFPrivateKey] and
    asks for no rescan when the import fails.  When the import succeeds it
    returns nil; with [rescan] set it asks for one rescan, from block 0 and
    for the imported address only, and flushes once more, whatever that
    flush answers; without [rescan] it does nothing more. *)
Theorem ImportPrivKey_rescan_request (w : World W) (wif : string) (rescan : bool) :
  let imported := ImportWIFPrivateKey wif zero_BlockStamp w in
  match snd imported with
  | Err e => ImportPrivKey wif rescan w = (fst imported, Some e)
  | Ok addr =>
      snd (ImportPrivKey wif rescan w) = None
      /\ List.filter is_Rescan (trace (fst (ImportPrivKey wif rescan w)))
         = List.filter is_Rescan (trace (fst imported))
           ++ (if rescan then [EvRescan 0 [addr]] else [])
      /\ Wallet (acct (fst (ImportPrivKey wif rescan w))) = Wallet (acct (fst imported))
      /\ addressAccountMap (fst (ImportPrivKey wif rescan w))
         = addressAccountMap (fst imported)
  end.
Proof.
  cbv zeta. unfold ImportPrivKey, bind. cbv zeta.
  destruct (ImportWIFPrivateKey wif zero_BlockStamp w) as [w1 [addr|e]]; simpl;
    [|reflexivity].
  destruct rescan; run_method; simpl.
  - destruct (disk w1) as [|[ed|] rest]; simpl;
      rewrite List.filter_app; repeat split; reflexivity.
  - rewrite app_nil_r. repeat split; reflexivity.
Qed.

End MoreAddresses.

(** ** Dumping keys and listing active addresses *)

Section MoreQueries.
Context {W : Type} `{!Collaborators W} `{!WalletQueries W}.

Lemma DumpPrivKeys_loop_result (w : World W) (actives : list (Address.t * AddressInfo.t))
  (privkeys : list string) :
  match DumpPrivKeys_loop w actives privkeys with
  | Ok keys => exists new, keys = privkeys ++ new /\ Forall2 (dumps_to w) actives new
  | Err e => Exists (dump_fails_with w e) actives
  end.
Proof.
  revert privkeys. induction actives as [|[addr info] rest IH]; intros privkeys; simpl.
  - exists []. rewrite app_nil_r. split; [reflexivity | constructor].
  - destruct (Wallet_AddressKey (Wallet (acct w)) addr) as [d|e] eqn:Hkey.
    + destruct (EncodePrivateKey d (Net w) (AddressInfo.Compressed info)) as [k|e] eqn:Henc.
      * specialize (IH (privkeys ++ [k])).
        destruct (DumpPrivKeys_loop w rest (privkeys ++ [k])) as [keys|e].
        -- destruct IH as (new & -> & Hall). exists (k :: new).
           rewrite <- app_assoc. split; [reflexivity|].
           constructor; [exists d; split; assumption | exact Hall].
        -- apply Exists_cons_tl, IH.
      * apply Exists_cons_hd. right. exists d. split; assumption.
    + apply Exists_cons_hd. left. exact Hkey.
Qed.

(** X20.  [DumpPrivKeys] is all or nothing: it returns one encoded key for
    each active address, in the order in which the addresses are visited, or
    it returns no key at all and the error of an address whose key could not
    be found or encoded. *)
Theorem DumpPrivKeys_all_or_nothing (w : World W) :
  let actives := Wallet_ActiveAddresses (Wallet (acct w)) in
  match DumpPrivKeys w with
  | Ok keys => Forall2 (dumps_to w) actives keys /\ length keys = length actives
  | Err e => Exists (dump_fails_with w e) actives
  end.
Proof.
  cbv zeta. unfold DumpPrivKeys.
  pose proof (DumpPrivKeys_loop_result w (Wallet_ActiveAddresses (Wallet (acct w))) []) as Hloop.
  destruct (DumpPrivKeys_loop _ _ _) as [keys|e]; [|exact Hloop].
  destruct Hloop as (new & -> & Hall). simpl.
  split; [exact Hall | symmetry; eapply Forall2_length, Hall].
Qed.

(** X21.  When the wallet's [AddressInfo] answers for every active address
    with the compression flag that [ActiveAddresses] lists for it,
    [DumpPrivKeys] returns for each active address the key that
    [DumpWIFPrivateKey] returns for it, and fails only with an error with
    which [DumpWIFPrivateKey] fails for some active address. *)
Theorem DumpPrivKeys_agrees_with_DumpWIFPrivateKey (w : World W) :
  let actives := Wallet_ActiveAddresses (Wallet (acct w)) in
  Forall (fun entry =>
            exists info, Wallet_AddressInfo (Wallet (acct w)) (fst entry) = Ok info
                         /\ AddressInfo.Compressed info = AddressInfo.Compressed (snd entry))
         actives ->
  match DumpPrivKeys w with
  | Ok keys => Forall2 (fun entry key => DumpWIFPrivateKey w (fst entry) = Ok key) actives keys
  | Err e => Exists (fun entry => DumpWIFPrivateKey w (fst entry) = Err e) actives
  end.
Proof.
  cbv zeta. intros Hinfo. unfold DumpPrivKeys.
  pose proof (DumpPrivKeys_loop_result w (Wallet_ActiveAddresses (Wallet (acct w))) [])
    as Hdump.
  destruct (DumpPrivKeys_loop _ _ _) as [keys|e].
  - destruct Hdump as (new & -> & Hall). simpl.
    revert Hinfo. induction Hall as [|entry key actives keys Hentry _ IH]; intros Hinfo.
    + constructor.
    + apply Forall_cons in Hinfo as [(info & Hi & Hc) Hrest].
      constructor; [|apply IH, Hrest].
      destruct Hentry as (d & Hkey & Henc).
      unfold DumpWIFPrivateKey. rewrite Hkey, Hi, Hc. exact Henc.
  - revert Hinfo. induction Hdump as [entry actives Hentry|entry actives _ IH]; intros Hinfo.
    + apply Forall_cons in Hinfo as [(info & Hi & Hc) _].
      apply Exists_cons_hd. unfold DumpWIFPrivateKey.
      destruct Hentry as [Hkey | (d & Hkey & Henc)].
      * rewrite Hkey. reflexivity.
      * rewrite Hkey, Hi, Hc. exact Henc.
    + apply Forall_cons in Hinfo as [_ Hrest]. apply Exists_cons_tl, IH, Hrest.
Qed.

(** X22.  A key dumped from one account and offered to another: provided
    the decoder reads back what the encoder wrote, [ImportWIFPrivateKey]
    refuses it with the wrong-network error, leaving the second account's
    world unchanged, when the two accounts are on different networks; when
    they are on the same network, the import hands the wallet the very key
    bytes and compression flag that were dumped. *)
Theorem dumped_key_import (w1 w2 : World W) (addr : Address.t) (wif : string)
  (bs : BlockStamp.t) :
  (forall d net c s, EncodePrivateKey d net c = Ok s -> DecodePrivateKey s = Ok (d, net, c)) ->
  DumpWIFPrivateKey w1 addr = Ok wif ->
  (Net w2 <> Net w1 -> ImportWIFPrivateKey wif bs w2 = (w2, Err ErrWrongNetwork))
  /\ (Net w2 = Net w1 ->
      exists d info rest,
        Wallet_AddressKey (Wallet (acct w1)) addr = Ok d
        /\ Wallet_AddressInfo (Wallet (acct w1)) addr = Ok info
        /\ trace (fst (ImportWIFPrivateKey wif bs w2))
           = trace w2
             ++ EvWallet (CallImportPrivateKey d (AddressInfo.Compressed info) bs) :: rest).
Proof.
  intros Hcodec Hdump. unfold DumpWIFPrivateKey in Hdump.
  destruct (Wallet_AddressKey (Wallet (acct w1)) addr) as [d|e] eqn:Hkey; [|discriminate].
  destruct (Wallet_AddressInfo (Wallet (acct w1)) addr) as [info|e] eqn:Hi; [|discriminate].
  apply Hcodec in Hdump. split.
  - intros Hnet. run_method. rewrite Hdump.
    apply not_eq_sym, Z.eqb_neq in Hnet. rewrite Hnet. reflexivity.
  - intros Hnet. exists d, info. run_method. rewrite Hdump, Hnet, Z.eqb_refl. simpl.
    destruct (Wallet_ImportPrivateKey (Wallet (acct w2)) d (AddressInfo.Compressed info) bs)
      as [wl [a|e]]; simpl.
    + destruct (disk w2) as [|[ed|] tl]; simpl; eexists;
        (split; [reflexivity|]); (split; [reflexivity|]);
        rewrite <- ?app_assoc; reflexivity.
    + exists []. repeat split; reflexivity.
Qed.

Lemma ActivePaymentAddresses_loop (l : list (Address.t * AddressInfo.t)) (acc : gset string)
  (s : string) :
  s ∈ fold_left (fun addrs (entry : Address.t * AddressInfo.t) =>
                   {[ Address.EncodeAddress (AddressInfo.Addr (snd entry)) ]} ∪ addrs) l acc
  <-> s ∈ acc
      \/ exists entry, entry ∈ l /\ Address.EncodeAddress (AddressInfo.Addr (snd entry)) = s.
Proof.
  revert acc. induction l as [|entry l IH]; intros acc; simpl.
  - split; [auto|]. intros [Hacc | (entry & Hin & _)]; [exact Hacc|].
    apply elem_of_nil in Hin. contradiction.
  - rewrite IH, elem_of_union, elem_of_singleton. split.
    + intros [[-> | Hacc] | (entry' & Hin & Henc)].
      * right. exists entry. split; [apply list_elem_of_here | reflexivity].
      * left. exact Hacc.
      * right. exists entry'. split; [apply list_elem_of_further, Hin | exact Henc].
    + intros [Hacc | (entry' & Hin & Henc)].
      * left. right. exact Hacc.
      * apply elem_of_cons in Hin as [-> | Hin].
        -- left. left. symmetry. exact Henc.
        -- right. exists entry'. split; assumption.
Qed.

(** X23.  [ActivePaymentAddresses] holds exactly the encodings of the
    active addresses: a string is in the set iff it is the encoded address
    of an entry that the wallet's [ActiveAddresses] lists. *)
Theorem ActivePaymentAddresses_membership (w : World W) (s : string) :
  s ∈ ActivePaymentAddresses w
  <-> exists entry, entry ∈ Wallet_ActiveAddresses (Wallet (acct w))
                    /\ Address.EncodeAddress (AddressInfo.Addr (snd entry)) = s.
Proof.
  unfold ActivePaymentAddresses. rewrite ActivePaymentAddresses_loop. split.
  - intros [Hempty | Hex]; [|exact Hex]. apply elem_of_empty in Hempty. contradiction.
  - intros Hex. right. exact Hex.
Qed.

(** X24.  When the wallet's sorted list of active addresses holds the same
    entries as its map of active addresses, [SortedActivePaymentAddresses]
    lists exactly the members of [ActivePaymentAddresses], one string for
    each entry. *)
Theorem SortedActivePaymentAddresses_same_addresses (w : World W) :
  Wallet_SortedActiveAddresses (Wallet (acct w))
  ≡ₚ snd <$> Wallet_ActiveAddresses (Wallet (acct w)) ->
  (forall s, s ∈ SortedActivePaymentAddresses w <-> s ∈ ActivePaymentAddresses w)
  /\ length (SortedActivePaymentAddresses w)
     = length (Wallet_ActiveAddresses (Wallet (acct w))).
Proof.
  intros Hperm. split.
  - intros s. unfold ActivePaymentAddresses. rewrite ActivePaymentAddresses_loop.
    unfold SortedActivePaymentAddresses.
    change (map ?f ?l) with (f <$> l). rewrite list_elem_of_fmap. split.
    + intros (info & -> & Hin). rewrite Hperm in Hin.
      apply list_elem_of_fmap in Hin as (entry & -> & Hentry).
      right. exists entry. split; [exact Hentry | reflexivity].
    + intros [Hempty | (entry & Hentry & <-)];
        [apply elem_of_empty in Hempty; contradiction|].
      exists (snd entry). split; [reflexivity|].
      rewrite Hperm. apply list_elem_of_fmap. exists entry. split; [reflexivity | exact Hentry].
  - unfold SortedActivePaymentAddresses. rewrite length_map, Hperm, length_fmap. reflexivity.
Qed.

(** X25.  [RescanActiveAddresses] sends one rescan request, for the
    encodings of the active addresses, beginning at the wallet's earliest
    block height when a full rescan is due and otherwise at the block after
    the one the wallet is synced with (computed in int32); it changes
    neither the wallet, the stores, the account's name nor the registry,
    whatever its final flush answers. *)
Theorem RescanActiveAddresses_request (w : World W) :
  let a := acct w in
  let w' := fst (RescanActiveAddresses w) in
  List.filter is_Rescan (trace w')
  = List.filter is_Rescan (trace w)
    ++ [EvRescan (if fullRescan a then Wallet_EarliestBlockHeight (Wallet a)
                  else GoInt.wrap_signed 32 (BlockStamp.Height (Wallet_SyncedWith (Wallet a)) + 1))
          (elements (ActivePaymentAddresses w))]
  /\ (fullRescan a = false ->
      GoInt.in_signed 32 (BlockStamp.Height (Wallet_SyncedWith (Wallet a)) + 1) ->
      EvRescan (BlockStamp.Height (Wallet_SyncedWith (Wallet a)) + 1)
        (elements (ActivePaymentAddresses w)) ∈ trace w')
  /\ Wallet (acct w') = Wallet a
  /\ UtxoStore_s (acct w') = UtxoStore_s a
  /\ TxStore_s (acct w') = TxStore_s a
  /\ name (acct w') = name a
  /\ addressAccountMap w' = addressAccountMap w.
Proof.
  cbv zeta. unfold RescanActiveAddresses, rescan_beginBlock, GoInt.int32_add.
  run_method. simpl.
  assert (Hset : forall t, ActivePaymentAddresses (set_trace t w) = ActivePaymentAddresses w)
    by reflexivity.
  destruct (fullRescan (acct w)) eqn:Hfull; simpl; rewrite Hset;
    destruct (disk w) as [|[ed|] rest]; simpl;
    rewrite !List.filter_app; simpl; rewrite app_nil_r;
    (split; [reflexivity|]);
    (split; [intros Hf Hfit; try discriminate;
             rewrite wrap_signed_fits by (lia || exact Hfit);
             rewrite !elem_of_app, !list_elem_of_singleton; tauto|]);
    repeat split; reflexivity.
Qed.

End MoreQueries.

(** ** The further properties on the sample worlds *)

(** X4 on the sample world after a payment of 7 satoshi to the wallet's
    last chained address: the next address of the keypool is handed out. *)
Lemma CurrentAddress_after_receive_witness :
  snd (CurrentAddress (append_tx (Sample.recv Byte.x01 7 100) Sample.world0))
  = Ok Sample.addr2
  /\ LookupAccountByAddress
       (fst (CurrentAddress (append_tx (Sample.recv Byte.x01 7 100) Sample.world0)))
       "1second"
     = Ok "savings".
Proof.
  destruct (CurrentAddress_after_receive
              (append_tx (Sample.recv Byte.x01 7 100) Sample.world0)
              (RecvTx.mk (Sample.h20 Byte.x01) 7 100 [Byte.x01])
              (Sample.best 100)
              (fst (Sample.nextChainedAddress Sample.wallet0 (Sample.best 100)))
              Sample.addr2) as (Hret & _ & Hreg).
  - do 3 apply list_elem_of_further. apply list_elem_of_here.
  - reflexivity.
  - reflexivity.
  - reflexivity.
  - split; [exact Hret | exact Hreg].
Defined.

(** X5 on the sample world: all three entries count, 80 satoshi. *)
Lemma CalculateBalance_zero_confirmations_witness :
  CalculateBalance Sample.world0 0 = bitcoin_of_satoshi 80.
Proof.
  exact (CalculateBalance_zero_confirmations Sample.world0 eq_refl
           ltac:(discriminate)).
Defined.

(** X6 on the sample world, whose third entry is unconfirmed. *)
Lemma unconfirmed_never_count_witness :
  CalculateBalance Sample.world0 1
  = CalculateBalance
      (with_utxos [Sample.utxo Byte.x01 50 90; Sample.utxo Byte.x02 25 100] Sample.world0) 1.
Proof.
  exact (unconfirmed_never_count Sample.world0 1 ltac:(discriminate)).
Defined.

(** X7 on two entries in either order. *)
Lemma balance_order_independent_witness :
  CalculateBalance
    (with_utxos [Sample.utxo Byte.x01 50 90; Sample.utxo Byte.x02 25 100] Sample.world0) 1
  = CalculateBalance
      (with_utxos [Sample.utxo Byte.x02 25 100; Sample.utxo Byte.x01 50 90] Sample.world0) 1
  /\ CalculateAddressBalance
       (with_utxos [Sample.utxo Byte.x01 50 90; Sample.utxo Byte.x02 25 100] Sample.world0)
       Sample.addr1 1
     = CalculateAddressBalance
         (with_utxos [Sample.utxo Byte.x02 25 100; Sample.utxo Byte.x01 50 90] Sample.world0)
         Sample.addr1 1.
Proof.
  apply (balance_order_independent Sample.world0
           [Sample.utxo Byte.x01 50 90; Sample.utxo Byte.x02 25 100]
           [Sample.utxo Byte.x02 25 100; Sample.utxo Byte.x01 50 90]
           Sample.addr1 1).
  apply perm_swap.
Defined.

(** X8 on the sample world, for an address that received nothing. *)
Lemma CalculateAddressBalance_no_entry_witness :
  CalculateAddressBalance Sample.world0 (Address.mk "1other" (Sample.h20 Byte.x07) true) 0
  = float64_zero.
Proof.
  apply (CalculateAddressBalance_no_entry Sample.world0
           (Address.mk "1other" (Sample.h20 Byte.x07) true) 0).
  repeat (constructor; [intros Heq; discriminate Heq|]). constructor.
Defined.

(** X9: an entry with eleven confirmations, enough for six, is enough for
    one. *)
Lemma enough_for_fewer_confirmations_witness :
  counts_towards 6 (Sample.best 100) (Sample.utxo Byte.x01 50 90) = true
  /\ counts_towards 1 (Sample.best 100) (Sample.utxo Byte.x01 50 90) = true.
Proof.
  split; [reflexivity|].
  apply (enough_for_fewer_confirmations 1 6 (Sample.best 100) (Sample.utxo Byte.x01 50 90)).
  - lia.
  - reflexivity.
Defined.

(** X10 on the sample store, with a negative [from]. *)
Lemma ListTransactions_nonpositive_count_witness :
  ListTransactions Sample.world0 (-5) 0 = Returns (Ok []).
Proof.
  apply (ListTransactions_nonpositive_count Sample.world0 (-5) 0).
  - reflexivity.
  - unfold GoInt.in_signed. simpl. lia.
  - lia.
Defined.

(** X11 on the sample store of three records, asked for seven. *)
Lemma ListTransactions_whole_store_witness :
  ListTransactions Sample.world0 0 7 = ListAllTransactions Sample.world0.
Proof.
  apply (ListTransactions_whole_store Sample.world0 7).
  - unfold GoInt.in_signed. simpl. lia.
  - simpl. lia.
Defined.

(** X12 on the store of five records, asked for two and for four. *)
Lemma ListTransactions_larger_count_extends_witness :
  exists rows older,
    ListTransactions Sample.world5 0 2 = Returns (Ok rows)
    /\ ListTransactions Sample.world5 0 4 = Returns (Ok (rows ++ older)).
Proof.
  apply (ListTransactions_larger_count_extends Sample.world5 2 4).
  - reflexivity.
  - lia.
  - unfold GoInt.in_signed. simpl. lia.
  - unfold GoInt.in_signed. simpl. lia.
Defined.

(** X13 on the sample store of three records: [from = -1] with
    [count = 4] panics, [from = -1] with [count = 3] does not. *)
Lemma ListTransactions_panics_iff_witness :
  ListTransactions Sample.world0 (-1) 4 = Panics
  /\ ListTransactions Sample.world0 (-1) 3
     = Returns (Ok (flat_map (rows_in Sample.world0) (rev (TxStore_s Sample.account0)))).
Proof.
  split; [|reflexivity].
  apply (ListTransactions_panics_iff Sample.world0 (-1) 4).
  - reflexivity.
  - unfold GoInt.in_signed. simpl. lia.
  - simpl. lia.
Defined.

(** X16 on an account whose wallet has no address left to issue. *)
Lemma NewAddress_failure_witness :
  snd (NewAddress SampleQueries.world_two_addresses)
  = Err (ErrCollaborator "keypool exhausted")
  /\ addressAccountMap (fst (NewAddress SampleQueries.world_two_addresses))
     = addressAccountMap SampleQueries.world_two_addresses
  /\ disk (fst (NewAddress SampleQueries.world_two_addresses))
     = disk SampleQueries.world_two_addresses.
Proof.
  split; [reflexivity|].
  destruct (NewAddress_failure SampleQueries.world_two_addresses
              (ErrCollaborator "keypool exhausted"))
    as (Hreg & _ & _ & _ & Hdisk & _).
  - reflexivity.
  - split; [exact Hreg | exact Hdisk].
Defined.

(** X17 on the world whose disk refuses the write: the address is returned
    and the one notification request is sent all the same. *)
Lemma NewAddress_notification_request_witness :
  snd (NewAddress Sample.world_disk_full) = Ok Sample.addr2
  /\ List.filter is_NotifyNewTXs (trace (fst (NewAddress Sample.world_disk_full)))
     = [EvNotifyNewTXs ["1second"]].
Proof.
  apply (NewAddress_notification_request Sample.world_disk_full (Sample.best 100)
           (fst (Sample.nextChainedAddress Sample.wallet0 (Sample.best 100)))
           Sample.addr2); reflexivity.
Defined.

(** X18 on the sample world, with a string that is no private key. *)
Lemma ImportWIFPrivateKey_failure_witness :
  snd (ImportWIFPrivateKey "xabc" zero_BlockStamp Sample.world0)
  = Err (ErrCollaborator "malformed private key")
  /\ addressAccountMap (fst (ImportWIFPrivateKey "xabc" zero_BlockStamp Sample.world0))
     = addressAccountMap Sample.world0
  /\ fst (ImportWIFPrivateKey "xabc" zero_BlockStamp Sample.world0) = Sample.world0.
Proof.
  split; [reflexivity|].
  destruct (ImportWIFPrivateKey_failure Sample.world0 "xabc" zero_BlockStamp
              (ErrCollaborator "malformed private key"))
    as (Hreg & _ & _ & Hdecode).
  - reflexivity.
  - split; [exact Hreg|].
    apply (Hdecode (ErrCollaborator "malformed private key")). reflexivity.
Defined.

(** The sample decoder reads back what the sample encoder writes. *)
Lemma sample_codec_round_trip (d : bytes) (net : BitcoinNet) (c : bool) (s : string) :
  SampleQueries.encodePrivateKey d net c = Ok s ->
  Sample.decodePrivateKey s = Ok (d, net, c).
Proof.
  unfold SampleQueries.encodePrivateKey.
  destruct (net =? MainNet) eqn:Hmain.
  - apply Z.eqb_eq in Hmain. subst net. intros [= <-].
    destruct c; simpl; rewrite String.list_byte_of_string_of_list_byte; reflexivity.
  - destruct (net =? TestNet3) eqn:Htest; [|discriminate].
    apply Z.eqb_eq in Htest. subst net. intros [= <-].
    destruct c; simpl; rewrite String.list_byte_of_string_of_list_byte; reflexivity.
Qed.

(** X21 on the account that has issued both sample addresses. *)
Lemma DumpPrivKeys_agrees_with_DumpWIFPrivateKey_witness :
  exists keys,
    DumpPrivKeys SampleQueries.world_two_addresses = Ok keys
    /\ Forall2 (fun entry key =>
                  DumpWIFPrivateKey SampleQueries.world_two_addresses (fst entry) = Ok key)
         (Wallet_ActiveAddresses (Wallet (acct SampleQueries.world_two_addresses))) keys.
Proof.
  pose proof (DumpPrivKeys_agrees_with_DumpWIFPrivateKey SampleQueries.world_two_addresses)
    as Hagree.
  cbv zeta in Hagree.
  destruct (DumpPrivKeys SampleQueries.world_two_addresses) as [keys|e] eqn:Hdump.
  - exists keys. split; [reflexivity|]. apply Hagree.
    repeat (constructor; [eexists; split; reflexivity|]). constructor.
  - discriminate Hdump.
Defined.

(** X22: a key dumped from the main-network account is refused by the
    test-network account. *)
Lemma dumped_key_import_witness :
  DumpWIFPrivateKey SampleQueries.world_two_addresses Sample.addr1
  = Ok (String "K" (String.string_of_list_byte (Sample.h20 Byte.x01 ++ repeat Byte.x2a 12)))
  /\ ImportWIFPrivateKey
       (String "K" (String.string_of_list_byte (Sample.h20 Byte.x01 ++ repeat Byte.x2a 12)))
       zero_BlockStamp SampleQueries.world_testnet
     = (SampleQueries.world_testnet, Err ErrWrongNetwork).
Proof.
  split; [reflexivity|].
  destruct (dumped_key_import SampleQueries.world_two_addresses SampleQueries.world_testnet
              Sample.addr1
              (String "K"
                 (String.string_of_list_byte (Sample.h20 Byte.x01 ++ repeat Byte.x2a 12)))
              zero_BlockStamp) as [Hrefused _].
  - intros d net c s Henc. apply sample_codec_round_trip. exact Henc.
  - reflexivity.
  - apply Hrefused. discriminate.
Defined.

(** X24 on the account that has issued both sample addresses. *)
Lemma SortedActivePaymentAddresses_same_addresses_witness :
  length (SortedActivePaymentAddresses SampleQueries.world_two_addresses) = 2%nat
  /\ "1second" ∈ ActivePaymentAddresses SampleQueries.world_two_addresses.
Proof.
  destruct (SortedActivePaymentAddresses_same_addresses SampleQueries.world_two_addresses)
    as [Hsame Hlength].
  - reflexivity.
  - split; [exact Hlength|].
    apply Hsame. apply list_elem_of_further, list_elem_of_here.
Defined.
